(** * CineConnect account controller: the pending-change verification workflow

    A shallow embedding of [server/controllers/userController.js].  Each
    Express handler becomes a function from the user collection (and the
    request) to the new collection and the HTTP response; the handler's early
    [return res.status(..).json(..)] statements become the left injection of
    a small error monad, and a refused write the 500 of its [catch].
    Strings hold the UTF-8 bytes of the JavaScript strings. *)

From Stdlib Require Import String Ascii List ZArith Bool Lia.
Import ListNotations.
Open Scope string_scope.

(** ** Data model *)

(** The four literals the controller assigns to [pendingChanges.changeType];
    JavaScript [null] is [None]. *)
Inductive ChangeType : Type :=
| CTusername
| CTemail
| CTpassword
| CTmultiple.

Definition changeTypeString (c : ChangeType) : string :=
  match c with
  | CTusername => "username"
  | CTemail => "email"
  | CTpassword => "password"
  | CTmultiple => "multiple"
  end.

(** The nested [pendingChanges] object of a user document. *)
Record PendingChanges : Type := mkPending {
  pc_username : option string;
  pc_email : option string;
  pc_password : option string;
  changeType : option ChangeType
}.

(** The object literal the controller writes to clear a batch. *)
Definition noPending : PendingChanges :=
  {| pc_username := None; pc_email := None; pc_password := None;
     changeType := None |}.

(** A user document, with the fields the controller reads or writes.
    Timestamps are milliseconds since the epoch. *)
Record User : Type := mkUser {
  _id : nat;
  username : string;
  email : string;
  password : string;
  isEmailVerified : bool;
  emailVerificationToken : option string;
  emailVerificationExpires : option Z;
  passwordResetToken : option string;
  passwordResetExpires : option Z;
  pendingChanges : PendingChanges;
  lastLogin : option Z
}.

(** Field assignments [user.f = v]. *)
Definition set_username (v : string) (u : User) : User :=
  mkUser (_id u) v (email u) (password u) (isEmailVerified u)
    (emailVerificationToken u) (emailVerificationExpires u)
    (passwordResetToken u) (passwordResetExpires u) (pendingChanges u)
    (lastLogin u).

Definition set_email (v : string) (u : User) : User :=
  mkUser (_id u) (username u) v (password u) (isEmailVerified u)
    (emailVerificationToken u) (emailVerificationExpires u)
    (passwordResetToken u) (passwordResetExpires u) (pendingChanges u)
    (lastLogin u).

Definition set_password (v : string) (u : User) : User :=
  mkUser (_id u) (username u) (email u) v (isEmailVerified u)
    (emailVerificationToken u) (emailVerificationExpires u)
    (passwordResetToken u) (passwordResetExpires u) (pendingChanges u)
    (lastLogin u).

Definition set_isEmailVerified (v : bool) (u : User) : User :=
  mkUser (_id u) (username u) (email u) (password u) v
    (emailVerificationToken u) (emailVerificationExpires u)
    (passwordResetToken u) (passwordResetExpires u) (pendingChanges u)
    (lastLogin u).

Definition set_emailVerificationToken (v : option string) (u : User) : User :=
  mkUser (_id u) (username u) (email u) (password u) (isEmailVerified u)
    v (emailVerificationExpires u)
    (passwordResetToken u) (passwordResetExpires u) (pendingChanges u)
    (lastLogin u).

Definition set_emailVerificationExpires (v : option Z) (u : User) : User :=
  mkUser (_id u) (username u) (email u) (password u) (isEmailVerified u)
    (emailVerificationToken u) v
    (passwordResetToken u) (passwordResetExpires u) (pendingChanges u)
    (lastLogin u).

Definition set_passwordResetToken (v : option string) (u : User) : User :=
  mkUser (_id u) (username u) (email u) (password u) (isEmailVerified u)
    (emailVerificationToken u) (emailVerificationExpires u)
    v (passwordResetExpires u) (pendingChanges u)
    (lastLogin u).

Definition set_passwordResetExpires (v : option Z) (u : User) : User :=
  mkUser (_id u) (username u) (email u) (password u) (isEmailVerified u)
    (emailVerificationToken u) (emailVerificationExpires u)
    (passwordResetToken u) v (pendingChanges u)
    (lastLogin u).

Definition set_pendingChanges (v : PendingChanges) (u : User) : User :=
  mkUser (_id u) (username u) (email u) (password u) (isEmailVerified u)
    (emailVerificationToken u) (emailVerificationExpires u)
    (passwordResetToken u) (passwordResetExpires u) v
    (lastLogin u).

Definition set_lastLogin (v : option Z) (u : User) : User :=
  mkUser (_id u) (username u) (email u) (password u) (isEmailVerified u)
    (emailVerificationToken u) (emailVerificationExpires u)
    (passwordResetToken u) (passwordResetExpires u) (pendingChanges u)
    v.

(** JavaScript truthiness of a value that is [null]/[undefined] or a string:
    the empty string is falsy like [null].  [truthyValue v] is [Some s]
    exactly when the test [if (v)] passes, with the string it then reads. *)
Definition truthyValue (v : option string) : option string :=
  match v with
  | Some s => if s =? "" then None else Some s
  | None => None
  end.

Definition isSet {A : Type} (v : option A) : bool :=
  match v with
  | Some _ => true
  | None => false
  end.

(** [a || b] on a nullable string and a string. *)
Definition orElse (v : option string) (d : string) : string :=
  match v with
  | Some s => if s =? "" then d else s
  | None => d
  end.

(** A nullable string inside a template literal. *)
Definition interpolate (v : option string) : string :=
  match v with
  | Some s => s
  | None => "null"
  end.

(** ** HTTP responses *)

#[local] Set Warnings "-register-all".

Inductive JSON : Type :=
| JStr (s : string)
| JBool (b : bool)
| JNum (n : nat)
| JNull
| JObj (fields : list (string * JSON)).

Record Response : Type := mkResponse {
  status : nat;
  body : list (string * JSON)
}.

(** [res.status(code).json({ message })]. *)
Definition reply (code : nat) (msg : string) : Response :=
  {| status := code; body := [("message", JStr msg)] |}.

(** ** The user collection *)

(** Documents in insertion order, which is the order [findOne] scans. *)
Definition DB : Type := list User.

Definition findOne (p : User -> bool) (db : DB) : option User := find p db.

Definition findById (id : nat) (db : DB) : option User :=
  findOne (fun u => _id u =? id)%nat db.

(** The collection once the store has accepted a write of [u]: the stored
    document with the same identity is replaced by the in-memory one, atomic
    per record. *)
Fixpoint save (u : User) (db : DB) : DB :=
  match db with
  | [] => []
  | v :: rest =>
      if (_id v =? _id u)%nat then u :: rest else v :: save u rest
  end.

(** The two paths the spec keeps unique across all users. *)
Inductive UniquePath : Type :=
| PathUsername
| PathEmail.

Definition pathValue (p : UniquePath) (u : User) : string :=
  match p with
  | PathUsername => username u
  | PathEmail => email u
  end.

(** Another stored document already holds the value [u] has at path [p]. *)
Definition heldByAnother (p : UniquePath) (u : User) (db : DB) : bool :=
  existsb (fun v => negb (_id v =? _id u)%nat
                    && (pathValue p v =? pathValue p u)) db.

(** The unique paths on which the in-memory document differs from the
    document as it was loaded: the ones a save rewrites. *)
Definition modifiedPaths (loaded mutated : User) : list UniquePath :=
  ((if username loaded =? username mutated then [] else [PathUsername])
   ++ (if email loaded =? email mutated then [] else [PathEmail]))%list.

Definition refuses (paths : list UniquePath) (u : User) (db : DB) : bool :=
  existsb (fun p => heldByAnother p u db) paths.

(** Modelled from the spec: [user.save()] against the Mongoose schema
    [models/User.js], which is not among the sources.  The spec's persistence
    contract is [save(User) -> User], atomic per record, with username and
    email unique across all users and the uniqueness enforced at write time:
    a save that rewrites one of the two paths to a value another document
    holds is refused ([None], the exception the handler's [catch] answers
    with a 500), and any other save is accepted.  [paths] are the unique
    paths the handler has modified.  No hook rewrites a field on the way. *)
Definition trySave (paths : list UniquePath) (u : User) (db : DB)
  : option DB :=
  if refuses paths u db then None else Some (save u db).

(** [string.length] of the JavaScript string whose UTF-8 bytes a [string]
    holds: the number of UTF-16 code units, one per character of up to three
    bytes and two per character of four. *)
Definition utf16Units (c : ascii) : nat :=
  let n := nat_of_ascii c in
  if (n <? 128)%nat then 1
  else if (n <? 192)%nat then 0
  else if (n <? 240)%nat then 1
  else 2.

Fixpoint jsLength (s : string) : nat :=
  match s with
  | EmptyString => 0
  | String c rest => utf16Units c + jsLength rest
  end.

(** ** Collaborators and the per-request environment *)

(** The pure external capabilities the controller calls: [bcrypt.hash] (with
    the salt [bcrypt.genSalt] produced), the password comparison behind
    [user.matchPassword], and the session-token signer [generateToken].  A
    bcrypt digest is never the empty string. *)
Class Collaborators : Type := {
  bcryptHash : string -> string -> string;
  bcryptCompare : string -> string -> bool;
  generateToken : nat -> string;
  bcryptHash_nonempty : forall plain salt, bcryptHash plain salt <> ""
}.

(** What one request observes of the outside world: the clock, the value the
    next [generateRandomToken()] returns, the salt of [bcrypt.genSalt], the
    identity the store gives a created document, and whether the email
    service's send resolves ([true]) or throws ([false]). *)
Record Env : Type := mkEnv {
  now : Z;
  freshToken : string;
  salt : string;
  freshId : nat;
  mailOk : bool
}.

Definition hours24 : Z := 24 * 60 * 60 * 1000.
Definition hours1 : Z := 60 * 60 * 1000.

(** Early return from a handler: [inl r] is [return res...json(..)]. *)
Definition Handler (A : Type) : Type := (Response + A)%type.

Definition bindH {A B : Type} (m : Handler A) (k : A -> Handler B)
  : Handler B :=
  match m with
  | inl r => inl r
  | inr a => k a
  end.

Notation "x <- m ;; k" := (bindH m (fun x => k))
  (at level 61, m at next level, right associativity).

(** ** Request bodies *)

Record RegisterBody : Type := mkRegisterBody {
  reg_username : string;
  reg_email : string;
  reg_password : string
}.

Record ProfileBody : Type := mkProfileBody {
  body_email : option string;
  body_username : option string;
  body_newPassword : option string;
  body_currentPassword : option string
}.

(** The locals [pendingChanges], [changeType] and [hasChanges] of
    [updateUserProfile]; the local [changeType] is kept in the record's own
    [changeType] field, as the final spread [{...pendingChanges, changeType}]
    stores it. *)
Record Staging : Type := mkStaging {
  staged : PendingChanges;
  hasChanges : bool
}.

Definition noStaging : Staging :=
  {| staged := noPending; hasChanges := false |}.

(** The double-quote character of the template literals. *)
Definition dquote : string := String (ascii_of_nat 34) EmptyString.

Section Controller.

Context `{C : Collaborators}.

(** Modelled from the spec: the schema method [user.matchPassword] of the
    absent [models/User.js]; the spec's Credential Verifier contract is
    [verify(plaintext, opaque) -> bool] against the stored password. *)
Definition matchPassword (user : User) (entered : string) : bool :=
  bcryptCompare entered (password user).

(** Modelled from the spec: [User.create] of the absent [models/User.js]; the
    spec creates the user at registration unverified, with no pending change
    and no reset token, and the store appends the document.  Its only caller
    has just found no stored user with this email or username (line 14), so
    the write-time uniqueness check has nothing to refuse. *)
Definition create (id : nat) (uname mail pass : string)
    (tok : string) (expires : Z) (db : DB) : User * DB :=
  let user := mkUser id uname mail pass false (Some tok) (Some expires)
                None None noPending None in
  (user, (db ++ [user])%list).

(** *** registerUser *)

Definition registerUser (env : Env) (b : RegisterBody) (db : DB)
  : DB * Response :=
  match findOne (fun u => (email u =? reg_email b)
                          || (username u =? reg_username b)) db with
  | Some userExists =>
      if email userExists =? reg_email b
      then (db, reply 400 "Email is already registered")
      else (db, reply 400 "Username is already taken")
  | None =>
      let emailVerificationToken := freshToken env in
      let emailVerificationExpires := (now env + hours24)%Z in
      let '(user, db1) :=
        create (freshId env) (reg_username b) (reg_email b) (reg_password b)
          emailVerificationToken emailVerificationExpires db in
      (db1,
       {| status := 201;
          body :=
            [("_id", JNum (_id user));
             ("username", JStr (username user));
             ("email", JStr (email user));
             ("isEmailVerified", JBool (isEmailVerified user));
             ("token", JStr (generateToken (_id user)));
             ("message",
              JStr (if mailOk env
                    then "Registration successful! Please check your email to verify your account."
                    else "Registration successful, but we could not send a verification email. Please try requesting a new verification email from your profile page."))]
       |})
  end.

(** *** loginUser *)

Definition loginUser (env : Env) (mail pass : string) (db : DB)
  : DB * Response :=
  match findOne (fun u => email u =? mail) db with
  | Some user =>
      if matchPassword user pass then
        let user1 := set_lastLogin (Some (now env)) user in
        match trySave [] user1 db with
        | Some db1 =>
            (db1,
             {| status := 200;
                body :=
                  [("_id", JNum (_id user1));
                   ("username", JStr (username user1));
                   ("email", JStr (email user1));
                   ("isEmailVerified", JBool (isEmailVerified user1));
                   ("token", JStr (generateToken (_id user1)))] |})
        | None => (db, reply 500 "Server error during login")
        end
      else (db, reply 401 "Invalid email or password")
  | None => (db, reply 401 "Invalid email or password")
  end.

(** *** updateUserProfile *)

Definition pendingExistsMessage : string :=
  "You have pending changes that require verification. Please check your email or request a new verification link.".

(** Lines 129-140: the email change. *)
Definition stageEmail (user : User) (b : ProfileBody) (db : DB)
    (st : Staging) : Handler Staging :=
  match truthyValue (body_email b) with
  | Some e =>
      if negb (e =? email user) then
        match findOne (fun v => email v =? e) db with
        | Some _ => inl (reply 400 "Email is already in use")
        | None =>
            inr {| staged :=
                     {| pc_username := pc_username (staged st);
                        pc_email := Some e;
                        pc_password := pc_password (staged st);
                        changeType := Some CTemail |};
                   hasChanges := true |}
        end
      else inr st
  | None => inr st
  end.

(** Lines 142-153: the username change. *)
Definition stageUsername (user : User) (b : ProfileBody) (db : DB)
    (st : Staging) : Handler Staging :=
  match truthyValue (body_username b) with
  | Some n =>
      if negb (n =? username user) then
        match findOne (fun v => username v =? n) db with
        | Some _ => inl (reply 400 "Username is already taken")
        | None =>
            inr {| staged :=
                     {| pc_username := Some n;
                        pc_email := pc_email (staged st);
                        pc_password := pc_password (staged st);
                        changeType :=
                          Some (if isSet (changeType (staged st))
                                then CTmultiple else CTusername) |};
                   hasChanges := true |}
        end
      else inr st
  | None => inr st
  end.

(** Lines 155-174: the password change. *)
Definition stagePassword (env : Env) (user : User) (b : ProfileBody)
    (st : Staging) : Handler Staging :=
  match truthyValue (body_newPassword b) with
  | Some newPassword =>
      match truthyValue (body_currentPassword b) with
      | None => inl (reply 400 "Current password is required")
      | Some currentPassword =>
          let isMatch := matchPassword user currentPassword in
          if negb isMatch then inl (reply 401 "Current password is incorrect")
          else
            let hashedPassword := bcryptHash newPassword (salt env) in
            inr {| staged :=
                     {| pc_username := pc_username (staged st);
                        pc_email := pc_email (staged st);
                        pc_password := Some hashedPassword;
                        changeType :=
                          Some (if isSet (changeType (staged st))
                                then CTmultiple else CTpassword) |};
                   hasChanges := true |}
      end
  | None => inr st
  end.

(** Lines 120-179: every validation that precedes the first write. *)
Definition stageChanges (env : Env) (user : User) (b : ProfileBody) (db : DB)
  : Handler Staging :=
  st1 <- stageEmail user b db noStaging ;;
  st2 <- stageUsername user b db st1 ;;
  st3 <- stagePassword env user b st2 ;;
  if negb (hasChanges st3) then inl (reply 400 "No changes were requested")
  else inr st3.

(** The [switch (changeType)] of lines 202-216. *)
Definition changeMessage (pc : PendingChanges) : string :=
  match changeType pc with
  | Some CTusername =>
      "username to " ++ dquote ++ interpolate (pc_username pc) ++ dquote
  | Some CTemail =>
      "email to " ++ dquote ++ interpolate (pc_email pc) ++ dquote
  | Some CTpassword => "password"
  | Some CTmultiple => "profile information"
  | None => "undefined"
  end.

Definition changeTypeJSON (c : option ChangeType) : JSON :=
  match c with
  | Some c => JStr (changeTypeString c)
  | None => JNull
  end.

Definition updateUserProfile (env : Env) (id : nat) (b : ProfileBody)
    (db : DB) : DB * Response :=
  match findById id db with
  | None => (db, reply 404 "User not found")
  | Some user =>
      if isSet (changeType (pendingChanges user))
      then (db, reply 400 pendingExistsMessage)
      else
        match stageChanges env user b db with
        | inl r => (db, r)
        | inr st =>
            let emailVerificationToken := freshToken env in
            let emailVerificationExpires := (now env + hours24)%Z in
            let user1 :=
              set_emailVerificationExpires (Some emailVerificationExpires)
                (set_emailVerificationToken (Some emailVerificationToken)
                   (set_pendingChanges (staged st) user)) in
            match trySave [] user1 db with
            | None => (db, reply 500 "Server error during profile update")
            | Some db1 =>
                if mailOk env then
                  let emailTarget :=
                    orElse (pc_email (staged st)) (email user1) in
                  (db1,
                   {| status := 200;
                      body :=
                        [("_id", JNum (_id user1));
                         ("username", JStr (username user1));
                         ("email", JStr (email user1));
                         ("isEmailVerified", JBool (isEmailVerified user1));
                         ("pendingChanges",
                          JObj [("hasChanges", JBool true);
                                ("changeType",
                                 changeTypeJSON (changeType (staged st)))]);
                         ("message",
                          JStr ("A verification email has been sent to "
                                ++ emailTarget
                                ++ ". Please verify to apply your changes to "
                                ++ changeMessage (staged st) ++ "."))] |})
                else
                  let user2 :=
                    set_emailVerificationExpires None
                      (set_emailVerificationToken None
                         (set_pendingChanges noPending user1)) in
                  match trySave [] user2 db1 with
                  | Some db2 =>
                      (db2,
                       reply 500
                         "Could not send verification email. Please try again later.")
                  | None =>
                      (db1, reply 500 "Server error during profile update")
                  end
            end
        end
  end.

(** *** verifyEmail *)

(** The query [{ emailVerificationToken: token,
    emailVerificationExpires: { $gt: Date.now() } }]. *)
Definition verificationMatches (token : string) (t : Z) (u : User) : bool :=
  match emailVerificationToken u, emailVerificationExpires u with
  | Some tok, Some expires => (tok =? token) && (t <? expires)%Z
  | _, _ => false
  end.

(** Lines 279-282: the initial account verification. *)
Definition verifyInitial (user : User) : User :=
  if negb (isEmailVerified user)
     && negb (isSet (changeType (pendingChanges user)))
  then set_isEmailVerified true user
  else user.

(** Lines 284-315: the profile-change verification. *)
Definition applyPending (user : User) : User :=
  if isSet (changeType (pendingChanges user)) then
    let pending := pendingChanges user in
    let user1 :=
      match truthyValue (pc_username pending) with
      | Some v => set_username v user
      | None => user
      end in
    let user2 :=
      match truthyValue (pc_email pending) with
      | Some v => set_email v user1
      | None => user1
      end in
    let user3 :=
      match truthyValue (pc_password pending) with
      | Some v => set_password v user2
      | None => user2
      end in
    let user4 := set_pendingChanges noPending user3 in
    if negb (isEmailVerified user4) then set_isEmailVerified true user4
    else user4
  else user.

(** Lines 317-319: the verification data is cleared. *)
Definition clearVerification (user : User) : User :=
  set_emailVerificationExpires None (set_emailVerificationToken None user).

Definition invalidTokenMessage : string :=
  "Invalid or expired verification token".

Definition verifyEmail (env : Env) (token : string) (db : DB)
  : DB * Response :=
  match findOne (verificationMatches token (now env)) db with
  | None => (db, reply 400 invalidTokenMessage)
  | Some user =>
      let user1 := clearVerification (applyPending (verifyInitial user)) in
      match trySave (modifiedPaths user user1) user1 db with
      | None => (db, reply 500 "Server error during verification")
      | Some db1 =>
          let message :=
            if isSet (changeType (pendingChanges user1))
            then "Profile changes applied successfully"
            else "Email verified successfully" in
          (db1,
           {| status := 200;
              body := [("success", JBool true); ("message", JStr message)] |})
      end
  end.

(** *** resendVerificationEmail *)

Definition resendVerificationEmail (env : Env) (id : nat) (db : DB)
  : DB * Response :=
  match findById id db with
  | None => (db, reply 404 "User not found")
  | Some user =>
      if isEmailVerified user
      then (db, reply 400 "Your email is already verified")
      else
        let user1 :=
          set_emailVerificationExpires (Some (now env + hours24)%Z)
            (set_emailVerificationToken (Some (freshToken env)) user) in
        match trySave [] user1 db with
        | None =>
            (db, reply 500 "Server error during verification email resend")
        | Some db1 =>
            (db1,
             if mailOk env
             then reply 200 "Verification email has been sent"
             else reply 500
                    "Could not send verification email. Please try again later.")
        end
  end.

(** *** forgotPassword *)

Definition resetLinkMessage : string :=
  "If an account with that email exists, a password reset link has been sent.".

Definition forgotPassword (env : Env) (mail : option string) (db : DB)
  : DB * Response :=
  match truthyValue mail with
  | None => (db, reply 400 "Email is required")
  | Some mail =>
      match findOne (fun u => email u =? mail) db with
      | None => (db, reply 200 resetLinkMessage)
      | Some user =>
          let user1 :=
            set_passwordResetExpires (Some (now env + hours1)%Z)
              (set_passwordResetToken (Some (freshToken env)) user) in
          match trySave [] user1 db with
          | None =>
              (db, reply 500 "Server error processing password reset request")
          | Some db1 =>
              if mailOk env then (db1, reply 200 resetLinkMessage)
              else
                let user2 :=
                  set_passwordResetExpires None
                    (set_passwordResetToken None user1) in
                match trySave [] user2 db1 with
                | Some db2 =>
                    (db2,
                     reply 500
                       "Error sending password reset email. Please try again later.")
                | None =>
                    (db1,
                     reply 500
                       "Server error processing password reset request")
                end
          end
      end
  end.

(** *** resetPassword *)

(** The query [{ passwordResetToken: token,
    passwordResetExpires: { $gt: Date.now() } }]. *)
Definition resetMatches (token : string) (t : Z) (u : User) : bool :=
  match passwordResetToken u, passwordResetExpires u with
  | Some tok, Some expires => (tok =? token) && (t <? expires)%Z
  | _, _ => false
  end.

Definition resetPassword (env : Env) (token : string) (pass : option string)
    (db : DB) : DB * Response :=
  match truthyValue pass with
  | None => (db, reply 400 "New password is required")
  | Some pass =>
      if (jsLength pass <? 6)%nat
      then (db, reply 400 "Password must be at least 6 characters")
      else
        match findOne (resetMatches token (now env)) db with
        | None => (db, reply 400 "Invalid or expired password reset token")
        | Some user =>
            let user1 :=
              set_passwordResetExpires None
                (set_passwordResetToken None (set_password pass user)) in
            match trySave [] user1 db with
            | Some db1 =>
                (db1,
                 reply 200
                   "Password has been reset successfully. You can now log in with your new password.")
            | None => (db, reply 500 "Server error during password reset")
            end
        end
  end.

(** ** The controller as a transition system *)

(** One request to one of the mutating routes. *)
Inductive Request : Type :=
| ReqRegister (b : RegisterBody)
| ReqLogin (mail pass : string)
| ReqUpdateProfile (id : nat) (b : ProfileBody)
| ReqVerifyEmail (token : string)
| ReqResendVerification (id : nat)
| ReqForgotPassword (mail : option string)
| ReqResetPassword (token : string) (pass : option string).

Definition handle (env : Env) (r : Request) (db : DB) : DB * Response :=
  match r with
  | ReqRegister b => registerUser env b db
  | ReqLogin mail pass => loginUser env mail pass db
  | ReqUpdateProfile id b => updateUserProfile env id b db
  | ReqVerifyEmail token => verifyEmail env token db
  | ReqResendVerification id => resendVerificationEmail env id db
  | ReqForgotPassword mail => forgotPassword env mail db
  | ReqResetPassword token pass => resetPassword env token pass db
  end.

(** Runs a sequence of requests, each in its own environment, from [db]. *)
Fixpoint run (trace : list (Env * Request)) (db : DB) : DB :=
  match trace with
  | [] => db
  | (env, r) :: rest => run rest (fst (handle env r db))
  end.

(** The collections the controller can produce from the empty one.  The
    identity the store would give a created document is one not in use. *)
Inductive reachable : DB -> Prop :=
| reachable_empty : reachable []
| reachable_handle (env : Env) (r : Request) (db : DB) :
    reachable db ->
    findById (freshId env) db = None ->
    reachable (fst (handle env r db)).

(** [db'] is [db] with the one document [u] replaced by [u'], every other
    document and the order kept: a single write to a single record. *)
Definition replaced (u u' : User) (db db' : DB) : Prop :=
  exists before after : list User,
    db = (before ++ u :: after)%list /\ db' = (before ++ u' :: after)%list.

(** ** Predicates of the claims *)

(** How many of the three staged fields are non-null. *)
Definition stagedCount (pc : PendingChanges) : nat :=
  (if isSet (pc_username pc) then 1 else 0)
  + (if isSet (pc_email pc) then 1 else 0)
  + (if isSet (pc_password pc) then 1 else 0).

(** A staged field is [null] or a non-empty string. *)
Definition stagedField (v : option string) : Prop :=
  match v with
  | Some s => s <> ""
  | None => True
  end.

Definition stagedFieldsOk (pc : PendingChanges) : Prop :=
  stagedField (pc_username pc) /\ stagedField (pc_email pc)
  /\ stagedField (pc_password pc).

(** What every reachable collection satisfies: identities are unique and no
    staged field is the empty string. *)
Definition storeOk (db : DB) : Prop :=
  NoDup (map _id db)
  /\ Forall (fun u => stagedFieldsOk (pendingChanges u)) db.

(** The tokens of a user that a lookup at time [t] still accepts, over both
    token kinds. *)
Definition activeTokens (t : Z) (u : User) : list string :=
  (match emailVerificationToken u, emailVerificationExpires u with
   | Some tok, Some expires => if (t <? expires)%Z then [tok] else []
   | _, _ => []
   end
   ++
   match passwordResetToken u, passwordResetExpires u with
   | Some tok, Some expires => if (t <? expires)%Z then [tok] else []
   | _, _ => []
   end)%list.

(** Rewrites the pending batch and the email-verification fields of a
    document, by identity, leaving every other field as it is. *)
Definition overwriteVerification (p : nat -> PendingChanges)
    (t : nat -> option string) (e : nat -> option Z) (u : User) : User :=
  set_emailVerificationExpires (e (_id u))
    (set_emailVerificationToken (t (_id u))
       (set_pendingChanges (p (_id u)) u)).

End Controller.

(** ** What one request does to the collection *)

Section Workflow.

Context `{C : Collaborators}.

(** The document [updateUserProfile] saves first (lines 185-194). *)
Definition withStagedBatch (env : Env) (st : Staging) (user : User) : User :=
  set_emailVerificationExpires (Some (now env + hours24)%Z)
    (set_emailVerificationToken (Some (freshToken env))
       (set_pendingChanges (staged st) user)).

(** The document its [catch] block saves (lines 240-249). *)
Definition withoutBatch (user : User) : User :=
  set_emailVerificationExpires None
    (set_emailVerificationToken None (set_pendingChanges noPending user)).

(** The document [resendVerificationEmail] saves (lines 357-365). *)
Definition withFreshVerification (env : Env) (user : User) : User :=
  set_emailVerificationExpires (Some (now env + hours24)%Z)
    (set_emailVerificationToken (Some (freshToken env)) user).

(** The document [forgotPassword] saves first (lines 424-431). *)
Definition withResetToken (env : Env) (user : User) : User :=
  set_passwordResetExpires (Some (now env + hours1)%Z)
    (set_passwordResetToken (Some (freshToken env)) user).

(** The document its [catch] block saves (lines 443-446), and the reset
    fields as [resetPassword] leaves them (lines 486-488). *)
Definition withoutResetToken (user : User) : User :=
  set_passwordResetExpires None (set_passwordResetToken None user).

(** The document [registerUser] creates (lines 24-36). *)
Definition registered (env : Env) (b : RegisterBody) : User :=
  mkUser (freshId env) (reg_username b) (reg_email b) (reg_password b) false
    (Some (freshToken env)) (Some (now env + hours24)%Z) None None
    noPending None.

(** The rewrites of a stored document [u] that a request can save, each with
    the test of the handler that guards it. *)
Inductive docUpdate (env : Env) (db : DB) : Request -> User -> User -> Prop :=
| upd_login (mail pass : string) (u : User) :
    matchPassword u pass = true ->
    docUpdate env db (ReqLogin mail pass) u (set_lastLogin (Some (now env)) u)
| upd_stage (b : ProfileBody) (st : Staging) (u : User) :
    changeType (pendingChanges u) = None ->
    stageChanges env u b db = inr st ->
    mailOk env = true ->
    docUpdate env db (ReqUpdateProfile (_id u) b) u (withStagedBatch env st u)
| upd_stage_rollback (b : ProfileBody) (st : Staging) (u : User) :
    changeType (pendingChanges u) = None ->
    stageChanges env u b db = inr st ->
    mailOk env = false ->
    docUpdate env db (ReqUpdateProfile (_id u) b) u
      (withoutBatch (withStagedBatch env st u))
| upd_verify (token : string) (u : User) :
    verificationMatches token (now env) u = true ->
    docUpdate env db (ReqVerifyEmail token) u
      (clearVerification (applyPending (verifyInitial u)))
| upd_resend (u : User) :
    isEmailVerified u = false ->
    docUpdate env db (ReqResendVerification (_id u)) u
      (withFreshVerification env u)
| upd_forgot (mail : option string) (u : User) :
    truthyValue mail = Some (email u) ->
    mailOk env = true ->
    docUpdate env db (ReqForgotPassword mail) u (withResetToken env u)
| upd_forgot_rollback (mail : option string) (u : User) :
    truthyValue mail = Some (email u) ->
    mailOk env = false ->
    docUpdate env db (ReqForgotPassword mail) u
      (withoutResetToken (withResetToken env u))
| upd_reset (token pass : string) (u : User) :
    resetMatches token (now env) u = true ->
    6 <= jsLength pass ->
    docUpdate env db (ReqResetPassword token (Some pass)) u
      (withoutResetToken (set_password pass u)).

(** Every request of a trace is handled with an identity to give away that
    the collection does not use yet. *)
Fixpoint freshAlong (trace : list (Env * Request)) (db : DB) : Prop :=
  match trace with
  | [] => True
  | (env, r) :: rest =>
      findById (freshId env) db = None
      /\ freshAlong rest (fst (handle env r db))
  end.

(** The tag that fits the staged fields of a batch: none for no field, the
    field's own for one, ['multiple'] for more. *)
Definition batchTag (pc : PendingChanges) : option ChangeType :=
  match stagedCount pc with
  | 0 => None
  | 1 => if isSet (pc_username pc) then Some CTusername
         else if isSet (pc_email pc) then Some CTemail
         else Some CTpassword
  | _ => Some CTmultiple
  end.

(** A document as the controller leaves it: the batch carries the tag that
    fits it, each token is set together with its expiry, and a pending batch
    comes with a verification token. *)
Definition docOk (u : User) : Prop :=
  changeType (pendingChanges u) = batchTag (pendingChanges u)
  /\ isSet (emailVerificationToken u) = isSet (emailVerificationExpires u)
  /\ isSet (passwordResetToken u) = isSet (passwordResetExpires u)
  /\ (changeType (pendingChanges u) <> None ->
      emailVerificationToken u <> None).

End Workflow.

(** ** The profile form of the client ([client/src/pages/Profile.jsx]) *)

(** The user object the page holds ([profileData] from the server, [user]
    from local storage); a field may be missing. *)
Record ClientUser : Type := mkClientUser {
  cu_username : option string;
  cu_email : option string
}.

(** The state [handleSubmit] reads: the four controlled inputs, the value of
    the [currentPassword] element, and the two cached user objects. *)
Record ProfileForm : Type := mkProfileForm {
  form_username : string;
  form_email : string;
  form_password : string;
  form_confirmPassword : string;
  form_currentPassword : option string;
  form_profileData : option ClientUser;
  form_user : option ClientUser
}.

(** [profileData?.field || user?.field]. *)
Definition cached (field : ClientUser -> option string)
    (profileData user : option ClientUser) : option string :=
  match truthyValue (match profileData with
                     | Some pd => field pd
                     | None => None
                     end) with
  | Some s => Some s
  | None => match user with
            | Some u => field u
            | None => None
            end
  end.

(** [value && value !== shown] for a string [value]. *)
Definition changedFrom (value : string) (shown : option string) : bool :=
  negb (value =? "")
  && match shown with
     | Some s => negb (value =? s)
     | None => true
     end.

(** [handleSubmit] up to the request: [inl] is the message given to
    [setError] before returning, [inr] the [updateData] sent to
    [userAPI.updateProfile]. *)
Definition handleSubmit (f : ProfileForm) : string + ProfileBody :=
  if negb (form_password f =? "")
     && negb (form_password f =? form_confirmPassword f)
  then inl "Passwords do not match"
  else
    let uname :=
      if changedFrom (form_username f)
           (cached cu_username (form_profileData f) (form_user f))
      then Some (form_username f) else None in
    let mail :=
      if changedFrom (form_email f)
           (cached cu_email (form_profileData f) (form_user f))
      then Some (form_email f) else None in
    if negb (form_password f =? "") then
      match truthyValue (form_currentPassword f) with
      | None => inl "Current password is required to set a new password"
      | Some _ =>
          inr {| body_email := mail; body_username := uname;
                 body_newPassword := Some (form_password f);
                 body_currentPassword := form_currentPassword f |}
      end
    else
      match uname, mail with
      | None, None => inl "No changes to update"
      | _, _ =>
          inr {| body_email := mail; body_username := uname;
                 body_newPassword := None; body_currentPassword := None |}
      end.

(** ** The change list of the profile-change email
    ([sendProfileVerificationEmail] of the email service) *)

(** The string [changeDetails] the service builds from the user and the
    staged batch, one list item per truthy staged field. *)
Definition changeDetails (user : User) (pending : PendingChanges) : string :=
  let opening :=
    "<ul style=" ++ dquote ++ "text-align: left; margin: 20px 0;" ++ dquote
    ++ ">" in
  let withUsername :=
    match truthyValue (pc_username pending) with
    | Some v =>
        opening ++ "<li>Username: <strong>" ++ username user
        ++ "</strong> → <strong>" ++ v ++ "</strong></li>"
    | None => opening
    end in
  let withEmail :=
    match truthyValue (pc_email pending) with
    | Some v =>
        withUsername ++ "<li>Email: <strong>" ++ email user
        ++ "</strong> → <strong>" ++ v ++ "</strong></li>"
    | None => withUsername
    end in
  let withPassword :=
    match truthyValue (pc_password pending) with
    | Some _ =>
        withEmail
        ++ "<li>Password: <strong>*******</strong> → <strong>*******</strong> (changed)</li>"
    | None => withEmail
    end in
  withPassword ++ "</ul>".

(** ** A test double and sample data *)

(** Stand-ins for bcrypt and the token signer, for running the handlers on
    concrete collections. *)
Definition testDouble : Collaborators.
Proof.
  refine {| bcryptHash := fun plain salt => "$2b$10$" ++ salt ++ plain;
            bcryptCompare := fun entered stored => stored =? entered;
            generateToken := fun id => "jwt" |}.
  intros plain salt; discriminate.
Defined.

Definition envAt (t : Z) (token : string) (id : nat) (ok : bool) : Env :=
  {| now := t; freshToken := token; salt := "salt"; freshId := id;
     mailOk := ok |}.

Definition aliceBody : RegisterBody :=
  {| reg_username := "alice"; reg_email := "alice@x.com";
     reg_password := "secret1" |}.

(** Alice, registered at time 0 and verified at time 10. *)
Definition dbVerified : DB :=
  @run testDouble
    [(envAt 0 "t-signup" 0 true, ReqRegister aliceBody);
     (envAt 10 "" 1 true, ReqVerifyEmail "t-signup")] [].

(** A request changing all three of username, email and password. *)
Definition changeAll : ProfileBody :=
  {| body_email := Some "new@x.com"; body_username := Some "alicia";
     body_newPassword := Some "secret2";
     body_currentPassword := Some "secret1" |}.

(** A request changing the username only. *)
Definition changeName : ProfileBody :=
  {| body_email := None; body_username := Some "alicia";
     body_newPassword := None; body_currentPassword := None |}.

(** Alice with the batch [changeAll] staged at time 20. *)
Definition dbPending : DB :=
  @run testDouble
    [(envAt 20 "t-change" 1 true, ReqUpdateProfile 0 changeAll)] dbVerified.

(** The one document of [dbVerified]. *)
Definition aliceVerified : User :=
  mkUser 0 "alice" "alice@x.com" "secret1" true None None None None
    noPending None.

(** The one document of [dbPending]. *)
Definition alicePending : User :=
  mkUser 0 "alice" "alice@x.com" "secret1" true
    (Some "t-change") (Some 86400020%Z) None None
    {| pc_username := Some "alicia"; pc_email := Some "new@x.com";
       pc_password := Some "$2b$10$saltsecret2";
       changeType := Some CTmultiple |}
    None.

(** Alice, registered at time 0, asking for a password reset at time 10
    without having verified her email. *)
Definition dbTwoTokens : DB :=
  @run testDouble
    [(envAt 0 "t-signup" 0 true, ReqRegister aliceBody);
     (envAt 10 "t-reset" 1 true, ReqForgotPassword (Some "alice@x.com"))] [].

(** The one document of [dbTwoTokens]. *)
Definition aliceTwoTokens : User :=
  mkUser 0 "alice" "alice@x.com" "secret1" false
    (Some "t-signup") (Some 86400000%Z) (Some "t-reset") (Some 3600010%Z)
    noPending None.

(** A verified user with no batch pending whose document still carries a
    verification token. *)
Definition aliceStale : User :=
  mkUser 0 "alice" "alice@x.com" "secret1" true
    (Some "t-old") (Some 1000%Z) None None noPending None.

(** Alice just registered, at time 0. *)
Definition dbRegistered : DB :=
  @run testDouble [(envAt 0 "t-signup" 0 true, ReqRegister aliceBody)] [].

(** The one document of [dbRegistered]. *)
Definition aliceRegistered : User :=
  mkUser 0 "alice" "alice@x.com" "secret1" false
    (Some "t-signup") (Some 86400000%Z) None None noPending None.

(** Bob registering with the email alice has staged. *)
Definition bobTakesEmail : RegisterBody :=
  {| reg_username := "bob"; reg_email := "new@x.com";
     reg_password := "hunter22" |}.

(** [dbPending] after bob has registered with that email, at time 25. *)
Definition dbEmailTaken : DB :=
  @run testDouble
    [(envAt 25 "t-bob" 1 true, ReqRegister bobTakesEmail)] dbPending.

Definition bobBody : RegisterBody :=
  {| reg_username := "bob"; reg_email := "bob@x.com";
     reg_password := "hunter22" |}.

(** Requests that reach the server after the token of [dbPending] expired:
    the old link, a new profile update, a resend, a login. *)
Definition lateTrace : list (Env * Request) :=
  [(envAt 90000000 "t-late1" 1 true, ReqVerifyEmail "t-change");
   (envAt 90000001 "t-late2" 1 true, ReqUpdateProfile 0 changeName);
   (envAt 90000002 "t-late3" 1 true, ReqResendVerification 0);
   (envAt 90000003 "t-late4" 1 true, ReqLogin "alice@x.com" "secret1")].

(** The profile form with a new username and a new password typed in, the
    page holding alice's stored username and email. *)
Definition aliceForm : ProfileForm :=
  {| form_username := "alicia"; form_email := "alice@x.com";
     form_password := "secret2"; form_confirmPassword := "secret2";
     form_currentPassword := Some "secret1";
     form_profileData :=
       Some {| cu_username := Some "alice"; cu_email := Some "alice@x.com" |};
     form_user := None |}.

(** The body [aliceForm] submits. *)
Definition aliceFormBody : ProfileBody :=
  {| body_email := None; body_username := Some "alicia";
     body_newPassword := Some "secret2";
     body_currentPassword := Some "secret1" |}.

(** ** Facts about the collection *)

Section Store.

Lemma findOne_In (p : User -> bool) (db : DB) (u : User) :
  findOne p db = Some u -> In u db /\ p u = true.
Proof. apply find_some. Qed.

Lemma findOne_none (p : User -> bool) (db : DB) :
  findOne p db = None <-> (forall u, In u db -> p u = false).
Proof.
  split.
  - intros H u Hin. exact (find_none p db H u Hin).
  - induction db as [|v rest IH]; intros H; simpl; [reflexivity|].
    rewrite (H v (or_introl eq_refl)). apply IH.
    intros u Hin. apply H. now right.
Qed.

Lemma save_ids (u : User) (db : DB) :
  map _id (save u db) = map _id db.
Proof.
  induction db as [|v rest IH]; simpl; [reflexivity|].
  destruct (Nat.eqb_spec (_id v) (_id u)) as [E|E]; simpl.
  - now rewrite E.
  - now rewrite IH.
Qed.

Lemma save_Forall (P : User -> Prop) (u : User) (db : DB) :
  P u -> Forall P db -> Forall P (save u db).
Proof.
  intros Hu Hdb. induction Hdb as [|v rest Hv Hrest IH]; simpl.
  - constructor.
  - destruct (_id v =? _id u)%nat; constructor; assumption.
Qed.

Lemma save_In (u w : User) (db : DB) :
  In w (save u db) -> w = u \/ In w db.
Proof.
  induction db as [|v rest IH]; simpl; [tauto|].
  destruct (_id v =? _id u)%nat; simpl; intros [H|H]; auto.
  destruct (IH H); auto.
Qed.

(** With unique identities, [save] rewrites exactly the document it was
    loaded from. *)
Lemma save_replaced (u u' : User) (db : DB) :
  NoDup (map _id db) -> In u db -> _id u' = _id u ->
  replaced u u' db (save u' db).
Proof.
  intros Hnd Hin Hid. induction db as [|v rest IH]; [contradiction|].
  simpl in Hnd. inversion Hnd as [|x xs Hnotin Hnd' Heq]; subst.
  simpl. destruct Hin as [->|Hin].
  - rewrite Hid, Nat.eqb_refl. now exists [], rest.
  - destruct (Nat.eqb_spec (_id v) (_id u')) as [E|E].
    + exfalso. apply Hnotin. rewrite E, Hid. now apply in_map.
    + destruct (IH Hnd' Hin) as (l1 & l2 & -> & Hs).
      exists (v :: l1), l2. simpl. now rewrite Hs.
Qed.

Lemma findById_save (id : nat) (u u' : User) (db : DB) :
  findById id db = Some u -> _id u' = id ->
  findById id (save u' db) = Some u'.
Proof.
  unfold findById, findOne. intros Hf Hid.
  induction db as [|v rest IH]; simpl in *; [discriminate|].
  rewrite Hid.
  destruct (Nat.eqb_spec (_id v) id) as [E|E]; simpl.
  - now rewrite Hid, Nat.eqb_refl.
  - destruct (Nat.eqb_spec (_id v) id); [contradiction|]. now apply IH.
Qed.

Lemma findById_id (id : nat) (u : User) (db : DB) :
  findById id db = Some u -> _id u = id.
Proof.
  intros H. apply findOne_In in H as [_ H]. now apply Nat.eqb_eq.
Qed.

(** A lookup whose predicate cannot tell [u'] from the document it replaces
    finds nothing after the save exactly when it found nothing before. *)
Lemma findOne_save_none (p : User -> bool) (id : nat) (u u' : User) (db : DB) :
  findById id db = Some u -> _id u' = id -> p u' = p u ->
  findOne p db = None -> findOne p (save u' db) = None.
Proof.
  unfold findById, findOne. intros Hf Hid Hp.
  induction db as [|v rest IH]; simpl in *; [reflexivity|].
  rewrite Hid.
  destruct (Nat.eqb_spec (_id v) id) as [E|E].
  - injection Hf as ->. simpl. rewrite Hp.
    destruct (p u); [discriminate|auto].
  - simpl. destruct (p v); [discriminate|]. now apply IH.
Qed.

End Store.

(** ** Staging *)

Section Staging.

Context `{C : Collaborators}.

Lemma truthyValue_some (v : option string) (s : string) :
  truthyValue v = Some s -> v = Some s /\ s <> "".
Proof.
  destruct v as [x|]; simpl; [|discriminate].
  destruct (String.eqb_spec x ""); [discriminate|].
  intros [= ->]. auto.
Qed.

Lemma truthyValue_staged (v : option string) :
  stagedField v -> truthyValue v = v.
Proof.
  destruct v as [x|]; simpl; [|reflexivity].
  intros H. destruct (String.eqb_spec x ""); [contradiction|reflexivity].
Qed.

(** Splits on every test of the staging steps, innermost first. *)
Ltac stage_split :=
  repeat match goal with
         | H : inl _ = inr _ |- _ => discriminate H
         | H : inr _ = inr _ |- _ => injection H as H; subst
         | H : context [match truthyValue ?v with _ => _ end] |- _ =>
             destruct (truthyValue v) eqn:?
         | H : context [match findOne ?p ?d with _ => _ end] |- _ =>
             destruct (findOne p d) eqn:?
         | H : context [if negb ?c then _ else _] |- _ =>
             destruct c eqn:?; simpl negb in H; cbv iota in H
         end.

(** What the three staging steps compute together: which fields they fill,
    and the tag they give the batch. *)
Lemma stageChanges_shape (env : Env) (user : User) (b : ProfileBody)
    (db : DB) (st : Staging) :
  stageChanges env user b db = inr st ->
  hasChanges st = true
  /\ pc_email (staged st)
     = match truthyValue (body_email b) with
       | Some e => if e =? email user then None else Some e
       | None => None
       end
  /\ pc_username (staged st)
     = match truthyValue (body_username b) with
       | Some n => if n =? username user then None else Some n
       | None => None
       end
  /\ pc_password (staged st)
     = match truthyValue (body_newPassword b) with
       | Some p => Some (bcryptHash p (salt env))
       | None => None
       end
  /\ changeType (staged st)
     = match stagedCount (staged st) with
       | 0 => None
       | 1 => if isSet (pc_username (staged st)) then Some CTusername
              else if isSet (pc_email (staged st)) then Some CTemail
              else Some CTpassword
       | _ => Some CTmultiple
       end.
Proof.
  unfold stageChanges, stageEmail, stageUsername, stagePassword, bindH.
  intros H. stage_split; simpl in *; try discriminate;
    repeat split; reflexivity.
Qed.

End Staging.

(** ** The invariant of reachable collections *)

Section Invariant.

Context `{C : Collaborators}.

Lemma stageChanges_fieldsOk (env : Env) (user : User) (b : ProfileBody)
    (db : DB) (st : Staging) :
  stageChanges env user b db = inr st -> stagedFieldsOk (staged st).
Proof.
  intros H. destruct (stageChanges_shape _ _ _ _ _ H)
    as (_ & He & Hn & Hp & _).
  unfold stagedFieldsOk. rewrite He, Hn, Hp. repeat split.
  - destruct (truthyValue (body_username b)) as [n|] eqn:E; simpl; [|exact I].
    destruct (n =? username user); simpl; [exact I|].
    now apply truthyValue_some in E.
  - destruct (truthyValue (body_email b)) as [e|] eqn:E; simpl; [|exact I].
    destruct (e =? email user); simpl; [exact I|].
    now apply truthyValue_some in E.
  - destruct (truthyValue (body_newPassword b)); simpl; [|exact I].
    apply bcryptHash_nonempty.
Qed.

Lemma storeOk_save (u : User) (db : DB) :
  storeOk db -> stagedFieldsOk (pendingChanges u) -> storeOk (save u db).
Proof.
  intros [Hnd Hall] Hu. split.
  - now rewrite save_ids.
  - now apply save_Forall.
Qed.

Lemma storeOk_found (p : User -> bool) (db : DB) (u : User) :
  storeOk db -> findOne p db = Some u -> stagedFieldsOk (pendingChanges u).
Proof.
  intros [_ Hall] Hf. apply findOne_In in Hf as [Hin _].
  rewrite Forall_forall in Hall. now apply Hall.
Qed.

Lemma noPending_fieldsOk : stagedFieldsOk noPending.
Proof. repeat split. Qed.

Lemma findById_none_fresh (id : nat) (db : DB) :
  findById id db = None -> ~ In id (map _id db).
Proof.
  intros H Hin. apply in_map_iff in Hin as (u & Hid & Hin).
  apply (proj1 (findOne_none _ _) H) in Hin.
  rewrite Hid, Nat.eqb_refl in Hin. discriminate.
Qed.

Lemma storeOk_create (id : nat) (uname mail pass tok : string) (expires : Z)
    (db : DB) :
  storeOk db -> findById id db = None ->
  storeOk (snd (create id uname mail pass tok expires db)).
Proof.
  intros [Hnd Hall] Hfresh. unfold create. simpl. split.
  - rewrite map_app. simpl.
    rewrite <- (rev_involutive (map _id db ++ [id])).
    apply NoDup_rev. rewrite rev_app_distr. simpl. constructor.
    + rewrite <- in_rev. now apply findById_none_fresh.
    + now apply NoDup_rev.
  - apply Forall_app. split; [assumption|].
    constructor; [apply noPending_fieldsOk|constructor].
Qed.

Lemma applyPending_fieldsOk (u : User) :
  stagedFieldsOk (pendingChanges u) ->
  stagedFieldsOk (pendingChanges (applyPending u)).
Proof.
  intros H. unfold applyPending.
  destruct (isSet (changeType (pendingChanges u))); [|assumption].
  match goal with
  | |- context [if ?c then _ else _] => destruct c
  end; apply noPending_fieldsOk.
Qed.

Lemma verifyInitial_pending (u : User) :
  pendingChanges (verifyInitial u) = pendingChanges u.
Proof.
  unfold verifyInitial.
  now destruct (negb (isEmailVerified u)
                && negb (isSet (changeType (pendingChanges u)))).
Qed.

(** Every handler keeps the invariant. *)
Lemma handle_storeOk (env : Env) (r : Request) (db : DB) :
  storeOk db -> findById (freshId env) db = None ->
  storeOk (fst (handle env r db)).
Proof.
  intros Hok Hfresh. destruct r as [b|mail pass|id b|token|id|mail|token pass];
    simpl.
  - unfold registerUser.
    destruct (findOne _ db) as [v|] eqn:E.
    + now destruct (email v =? reg_email b).
    + now apply storeOk_create.
  - unfold loginUser.
    destruct (findOne _ db) as [v|] eqn:E; [|assumption].
    destruct (matchPassword v pass); [|assumption].
    apply storeOk_save; [assumption|]. simpl. eapply storeOk_found; eauto.
  - unfold updateUserProfile.
    destruct (findById id db) as [v|] eqn:E; [|assumption].
    destruct (isSet (changeType (pendingChanges v))); [assumption|].
    destruct (stageChanges env v b db) as [resp|st] eqn:Hst; [assumption|].
    destruct (mailOk env); simpl.
    + apply storeOk_save; [assumption|]. simpl.
      eapply stageChanges_fieldsOk; eauto.
    + apply storeOk_save; [|apply noPending_fieldsOk].
      apply storeOk_save; [assumption|]. simpl.
      eapply stageChanges_fieldsOk; eauto.
  - unfold verifyEmail.
    destruct (findOne _ db) as [v|] eqn:E; [|assumption]. simpl.
    unfold trySave. destruct (refuses _ _ db); [assumption|]. simpl.
    apply storeOk_save; [assumption|]. simpl.
    apply applyPending_fieldsOk. rewrite verifyInitial_pending.
    eapply storeOk_found; eauto.
  - unfold resendVerificationEmail.
    destruct (findById id db) as [v|] eqn:E; [|assumption].
    destruct (isEmailVerified v); [assumption|]. simpl.
    apply storeOk_save; [assumption|]. simpl. eapply storeOk_found; eauto.
  - unfold forgotPassword.
    destruct (truthyValue mail) as [m|]; [|assumption].
    destruct (findOne _ db) as [v|] eqn:E; [|assumption].
    destruct (mailOk env); simpl.
    + apply storeOk_save; [assumption|]. simpl. eapply storeOk_found; eauto.
    + apply storeOk_save; [apply storeOk_save; [assumption|]|]; simpl;
        eapply storeOk_found; eauto.
  - unfold resetPassword.
    destruct (truthyValue pass) as [p|]; [|assumption].
    destruct (jsLength p <? 6)%nat; [assumption|].
    destruct (findOne _ db) as [v|] eqn:E; [|assumption]. simpl.
    apply storeOk_save; [assumption|]. simpl. eapply storeOk_found; eauto.
Qed.

Lemma reachable_storeOk (db : DB) : reachable db -> storeOk db.
Proof.
  induction 1 as [|env r db Hr IH Hfresh].
  - split; constructor.
  - now apply handle_storeOk.
Qed.

End Invariant.

(** ** verifyEmail *)

Section VerifyEmail.

Context `{C : Collaborators}.

Lemma verifyInitial_id (u : User) : _id (verifyInitial u) = _id u.
Proof.
  unfold verifyInitial.
  now destruct (negb (isEmailVerified u)
                && negb (isSet (changeType (pendingChanges u)))).
Qed.

(** With a batch pending, the initial-verification step does nothing. *)
Lemma verifyInitial_pending_set (u : User) :
  changeType (pendingChanges u) <> None -> verifyInitial u = u.
Proof.
  intros H. unfold verifyInitial.
  destruct (changeType (pendingChanges u)); [|contradiction].
  simpl. now rewrite andb_false_r.
Qed.

Lemma applyPending_id (u : User) : _id (applyPending u) = _id u.
Proof.
  unfold applyPending.
  destruct (isSet (changeType (pendingChanges u))); [|reflexivity].
  destruct (truthyValue (pc_username (pendingChanges u)));
    destruct (truthyValue (pc_email (pendingChanges u)));
    destruct (truthyValue (pc_password (pendingChanges u)));
    simpl; destruct (isEmailVerified u); reflexivity.
Qed.

(** After [applyPending] no batch is pending, whether one was or not. *)
Lemma applyPending_no_batch (u : User) :
  changeType (pendingChanges (applyPending u)) = None.
Proof.
  unfold applyPending.
  destruct (changeType (pendingChanges u)) eqn:E; simpl; [|exact E].
  destruct (truthyValue (pc_username (pendingChanges u)));
    destruct (truthyValue (pc_email (pendingChanges u)));
    destruct (truthyValue (pc_password (pendingChanges u)));
    simpl; destruct (isEmailVerified u); reflexivity.
Qed.

(** The lookup of [verifyEmail] never matches a document whose verification
    data was cleared. *)
Lemma clearVerification_unmatched (token : string) (t : Z) (u : User) :
  verificationMatches token t (clearVerification u) = false.
Proof. reflexivity. Qed.

(** A save that rewrites no unique path is never refused. *)
Lemma modifiedPaths_same (loaded mutated : User) :
  username mutated = username loaded -> email mutated = email loaded ->
  modifiedPaths loaded mutated = [].
Proof.
  intros Hn He. unfold modifiedPaths. now rewrite Hn, He, !String.eqb_refl.
Qed.

Lemma heldByAnother_false (p : UniquePath) (u : User) (db : DB) :
  (forall v, In v db -> _id v <> _id u -> pathValue p v <> pathValue p u) ->
  heldByAnother p u db = false.
Proof.
  intros H. unfold heldByAnother.
  destruct (existsb _ db) eqn:E; [|reflexivity].
  apply existsb_exists in E as (v & Hin & Hv).
  apply andb_true_iff in Hv as [Hid Hval].
  apply negb_true_iff, Nat.eqb_neq in Hid. apply String.eqb_eq in Hval.
  now destruct (H v Hin Hid).
Qed.

Lemma refuses_false (paths : list UniquePath) (u : User) (db : DB) :
  (forall p, In p paths -> heldByAnother p u db = false) ->
  refuses paths u db = false.
Proof.
  intros H. unfold refuses.
  destruct (existsb _ paths) eqn:E; [|reflexivity].
  apply existsb_exists in E as (p & Hin & Hp).
  now rewrite (H p Hin) in Hp.
Qed.

(** What [verifyEmail] answers once it has found a user: the store refuses
    the write or accepts it, and the message of an accepted one is always
    that of the initial verification. *)
Lemma verifyEmail_result (env : Env) (token : string) (db : DB) (user : User) :
  findOne (verificationMatches token (now env)) db = Some user ->
  verifyEmail env token db
  = if refuses
         (modifiedPaths user
            (clearVerification (applyPending (verifyInitial user))))
         (clearVerification (applyPending (verifyInitial user))) db
    then (db, reply 500 "Server error during verification")
    else (save (clearVerification (applyPending (verifyInitial user))) db,
          {| status := 200;
             body := [("success", JBool true);
                      ("message", JStr "Email verified successfully")] |}).
Proof.
  intros H. unfold verifyEmail, trySave. rewrite H.
  destruct (refuses _ _ db); [reflexivity|]. simpl.
  now rewrite applyPending_no_batch.
Qed.

(** The live fields after [applyPending], for a batch whose staged fields
    are null or non-empty. *)
Lemma applyPending_fields (u : User) :
  changeType (pendingChanges u) <> None ->
  stagedFieldsOk (pendingChanges u) ->
  username (applyPending u)
  = match pc_username (pendingChanges u) with
    | Some v => v
    | None => username u
    end
  /\ email (applyPending u)
     = match pc_email (pendingChanges u) with
       | Some v => v
       | None => email u
       end
  /\ password (applyPending u)
     = match pc_password (pendingChanges u) with
       | Some v => v
       | None => password u
       end
  /\ isEmailVerified (applyPending u) = true
  /\ pendingChanges (applyPending u) = noPending
  /\ passwordResetToken (applyPending u) = passwordResetToken u
  /\ passwordResetExpires (applyPending u) = passwordResetExpires u
  /\ lastLogin (applyPending u) = lastLogin u.
Proof.
  intros Hpending (Hn & He & Hp). unfold applyPending.
  destruct (changeType (pendingChanges u)) as [ct|]; [|contradiction].
  simpl isSet. cbv iota.
  rewrite (truthyValue_staged _ Hn), (truthyValue_staged _ He),
    (truthyValue_staged _ Hp).
  destruct (pc_username (pendingChanges u)),
    (pc_email (pendingChanges u)), (pc_password (pendingChanges u));
    simpl; destruct (isEmailVerified u) eqn:Ev; simpl;
    repeat split; try reflexivity; exact Ev.
Qed.

(** C1 (as amended): for a user of a reachable collection found by a
    non-expired verification token with a batch pending, [verifyEmail] is all
    or nothing.  Either it writes the collection once, replacing that user's
    document by one in which every staged field that is not null has been
    copied onto the live field (and a null one left the live field alone),
    [isEmailVerified] is true, the batch and both token fields are cleared
    and nothing else has changed, so that the token matches the document at
    no later time, and answers 200; or the store refuses the write, the
    answer is the 500 of the handler's [catch] and the collection is as it
    was, batch and token included.  It commits whenever no other stored user
    holds the staged email or the staged username. *)
Theorem verifyEmail_commits_batch_or_nothing
    (env : Env) (token : string) (db : DB) (user : User) :
  reachable db ->
  findOne (verificationMatches token (now env)) db = Some user ->
  changeType (pendingChanges user) <> None ->
  exists user' : User,
    username user'
    = match pc_username (pendingChanges user) with
      | Some v => v
      | None => username user
      end
    /\ email user'
       = match pc_email (pendingChanges user) with
         | Some v => v
         | None => email user
         end
    /\ password user'
       = match pc_password (pendingChanges user) with
         | Some v => v
         | None => password user
         end
    /\ isEmailVerified user' = true
    /\ pendingChanges user' = noPending
    /\ emailVerificationToken user' = None
    /\ emailVerificationExpires user' = None
    /\ (forall t, verificationMatches token t user' = false)
    /\ _id user' = _id user
    /\ passwordResetToken user' = passwordResetToken user
    /\ passwordResetExpires user' = passwordResetExpires user
    /\ lastLogin user' = lastLogin user
    /\ replaced user user' db (save user' db)
    /\ ((fst (verifyEmail env token db) = save user' db
         /\ status (snd (verifyEmail env token db)) = 200)
        \/ verifyEmail env token db
           = (db, reply 500 "Server error during verification"))
    /\ ((forall v, In v db -> _id v <> _id user ->
           pc_email (pendingChanges user) <> Some (email v)
           /\ pc_username (pendingChanges user) <> Some (username v)) ->
        fst (verifyEmail env token db) = save user' db
        /\ status (snd (verifyEmail env token db)) = 200).
Proof.
  intros Hreach Hfind Hpending.
  pose proof (reachable_storeOk _ Hreach) as Hok.
  pose proof (storeOk_found _ _ _ Hok Hfind) as Hfields.
  pose proof (verifyEmail_result _ _ _ _ Hfind) as Hres.
  rewrite (verifyInitial_pending_set _ Hpending) in Hres.
  destruct (applyPending_fields user Hpending Hfields)
    as (Fn & Fe & Fp & Fv & Fpc & Frt & Fre & Fl).
  exists (clearVerification (applyPending user)). simpl.
  repeat (split; [assumption || reflexivity|]).
  split; [apply applyPending_id|].
  repeat (split; [assumption|]).
  split.
  { apply save_replaced.
    - apply Hok.
    - now apply findOne_In in Hfind.
    - simpl. apply applyPending_id. }
  split.
  - rewrite Hres. destruct (refuses _ _ db); [now right|now left].
  - intros Hfree. rewrite Hres.
    rewrite refuses_false; [now split|].
    intros p Hin. apply heldByAnother_false. intros v Hv Hid.
    simpl in Hid. rewrite applyPending_id in Hid.
    destruct (Hfree v Hv Hid) as [Hemail Hname].
    unfold modifiedPaths in Hin. simpl in Hin.
    apply in_app_or in Hin as [Hin|Hin].
    + destruct (String.eqb_spec (username user)
                  (username (applyPending user))) as [E|E];
        [contradiction|].
      destruct Hin as [<-|[]]. simpl. rewrite Fn in *.
      destruct (pc_username (pendingChanges user)) as [n|];
        [congruence|now contradiction E].
    + destruct (String.eqb_spec (email user) (email (applyPending user)))
        as [E|E]; [contradiction|].
      destruct Hin as [<-|[]]. simpl. rewrite Fe in *.
      destruct (pc_email (pendingChanges user)) as [e|];
        [congruence|now contradiction E].
Qed.

(** C5: when every document either does not carry [token] as its
    verification token or carries an expiry that has passed (or none),
    [verifyEmail] answers 400 with the one generic message in both cases and
    returns the collection as it was. *)
Theorem verifyEmail_unknown_or_expired
    (env : Env) (token : string) (db : DB) :
  (forall u, In u db ->
     emailVerificationToken u <> Some token
     \/ match emailVerificationExpires u with
        | Some expires => (expires <= now env)%Z
        | None => True
        end) ->
  verifyEmail env token db = (db, reply 400 invalidTokenMessage).
Proof.
  intros H. unfold verifyEmail.
  replace (findOne (verificationMatches token (now env)) db) with (@None User);
    [reflexivity|].
  symmetry. apply findOne_none. intros u Hin. unfold verificationMatches.
  destruct (emailVerificationToken u) as [tok|] eqn:Et; [|reflexivity].
  destruct (emailVerificationExpires u) as [expires|] eqn:Ee; [|reflexivity].
  destruct (H u Hin) as [Hne|Hexp].
  - destruct (String.eqb_spec tok token) as [->|]; [|reflexivity].
    rewrite Et in Hne. now contradiction Hne.
  - rewrite Ee in Hexp.
    replace (now env <? expires)%Z with false; [apply andb_false_r|].
    symmetry. apply Z.ltb_ge. exact Hexp.
Qed.

(** C6: whenever [verifyEmail] finds a user, with a batch pending or not,
    the response it sends for an accepted write is the 200 with the message
    of the initial verification: the message is chosen from
    [pendingChanges.changeType] after the batch has been cleared.  The only
    other response is the 500 of a refused write. *)
Theorem verifyEmail_message_ignores_batch
    (env : Env) (token : string) (db : DB) (user : User) :
  findOne (verificationMatches token (now env)) db = Some user ->
  snd (verifyEmail env token db)
  = if refuses
         (modifiedPaths user
            (clearVerification (applyPending (verifyInitial user))))
         (clearVerification (applyPending (verifyInitial user))) db
    then reply 500 "Server error during verification"
    else {| status := 200;
            body := [("success", JBool true);
                     ("message", JStr "Email verified successfully")] |}.
Proof.
  intros H. rewrite (verifyEmail_result _ _ _ _ H).
  now destruct (refuses _ _ db).
Qed.

(** C10: for a user found by a non-expired verification token who is already
    verified and has no batch pending, [verifyEmail] succeeds and saves the
    user with only [emailVerificationToken] and [emailVerificationExpires]
    set to null: [isEmailVerified] stays true and username, email, password
    and every other field keep their values. *)
Theorem verifyEmail_reverification_harmless
    (env : Env) (token : string) (db : DB) (user : User) :
  findOne (verificationMatches token (now env)) db = Some user ->
  isEmailVerified user = true ->
  changeType (pendingChanges user) = None ->
  verifyEmail env token db
  = (save (clearVerification user) db,
     {| status := 200;
        body := [("success", JBool true);
                 ("message", JStr "Email verified successfully")] |})
  /\ emailVerificationToken (clearVerification user) = None
  /\ emailVerificationExpires (clearVerification user) = None
  /\ isEmailVerified (clearVerification user) = true
  /\ username (clearVerification user) = username user
  /\ email (clearVerification user) = email user
  /\ password (clearVerification user) = password user
  /\ pendingChanges (clearVerification user) = pendingChanges user
  /\ passwordResetToken (clearVerification user) = passwordResetToken user
  /\ passwordResetExpires (clearVerification user)
     = passwordResetExpires user
  /\ lastLogin (clearVerification user) = lastLogin user
  /\ _id (clearVerification user) = _id user.
Proof.
  intros Hfind Hver Hnone.
  assert (Hsame : applyPending (verifyInitial user) = user).
  { unfold verifyInitial. rewrite Hver. simpl.
    unfold applyPending. now rewrite Hnone. }
  rewrite (verifyEmail_result _ _ _ _ Hfind), Hsame.
  rewrite (modifiedPaths_same user (clearVerification user))
    by reflexivity.
  simpl. repeat split; assumption.
Qed.

End VerifyEmail.

(** ** updateUserProfile *)

Section UpdateUserProfile.

Context `{C : Collaborators}.

(** C2: for a user whose [pendingChanges.changeType] is set, every
    [updateUserProfile] request answers 400 with the pending-changes message
    and returns the collection as it was: no write happens, so the pending
    batch, the token and the live fields are untouched. *)
Theorem updateUserProfile_rejects_while_pending
    (env : Env) (id : nat) (b : ProfileBody) (db : DB) (user : User) :
  findById id db = Some user ->
  changeType (pendingChanges user) <> None ->
  updateUserProfile env id b db = (db, reply 400 pendingExistsMessage).
Proof.
  intros Hfind Hpending. unfold updateUserProfile. rewrite Hfind.
  destruct (changeType (pendingChanges user)); [reflexivity|contradiction].
Qed.

(** What [updateUserProfile] does once the validations have passed. *)
Lemma updateUserProfile_staged
    (env : Env) (id : nat) (b : ProfileBody) (db : DB) (user : User)
    (st : Staging) :
  findById id db = Some user ->
  changeType (pendingChanges user) = None ->
  stageChanges env user b db = inr st ->
  let user1 :=
    set_emailVerificationExpires (Some (now env + hours24)%Z)
      (set_emailVerificationToken (Some (freshToken env))
         (set_pendingChanges (staged st) user)) in
  let user2 :=
    set_emailVerificationExpires None
      (set_emailVerificationToken None
         (set_pendingChanges noPending user1)) in
  fst (updateUserProfile env id b db)
  = (if mailOk env then save user1 db else save user2 (save user1 db))
  /\ status (snd (updateUserProfile env id b db))
     = (if mailOk env then 200 else 500).
Proof.
  intros Hfind Hnone Hst. unfold updateUserProfile.
  rewrite Hfind, Hnone, Hst. simpl. now destruct (mailOk env).
Qed.

(** A 200 from [updateUserProfile] means the validations passed and the
    send resolved. *)
Lemma updateUserProfile_200
    (env : Env) (id : nat) (b : ProfileBody) (db : DB) :
  status (snd (updateUserProfile env id b db)) = 200 ->
  exists user st,
    findById id db = Some user
    /\ changeType (pendingChanges user) = None
    /\ stageChanges env user b db = inr st
    /\ mailOk env = true.
Proof.
  unfold updateUserProfile.
  destruct (findById id db) as [user|]; [|discriminate].
  destruct (changeType (pendingChanges user)) eqn:Hct; [discriminate|].
  simpl. destruct (stageChanges env user b db) as [r|st] eqn:Hst.
  - intros Hr. exfalso. revert Hst Hr.
    unfold stageChanges, stageEmail, stageUsername, stagePassword, bindH.
    intros Hst Hr.
    repeat match goal with
           | H : inl _ = inl _ |- _ => injection H as H; subst
           | H : inr _ = inl _ |- _ => discriminate H
           | H : context [match truthyValue ?v with _ => _ end] |- _ =>
               destruct (truthyValue v) eqn:?
           | H : context [match findOne ?p ?d with _ => _ end] |- _ =>
               destruct (findOne p d) eqn:?
           | H : context [if negb ?c then _ else _] |- _ =>
               destruct c eqn:?; simpl negb in H; cbv iota in H
           end; discriminate.
  - destruct (mailOk env); [|discriminate]. intros _. now exists user, st.
Qed.

(** C4: after an [updateUserProfile] that answers 200, the stored
    [pendingChanges.changeType] of the user is ['multiple'] exactly when at
    least two of the staged username, email and password are non-null; with
    fewer than two it names the staged field; and it is null exactly when
    all three are null. *)
Theorem updateUserProfile_changeType_classifies
    (env : Env) (id : nat) (b : ProfileBody) (db : DB) :
  status (snd (updateUserProfile env id b db)) = 200 ->
  exists user' : User,
    findById id (fst (updateUserProfile env id b db)) = Some user'
    /\ (changeType (pendingChanges user') = Some CTmultiple
        <-> 2 <= stagedCount (pendingChanges user'))
    /\ (stagedCount (pendingChanges user') < 2 ->
        (pc_username (pendingChanges user') <> None ->
         changeType (pendingChanges user') = Some CTusername)
        /\ (pc_email (pendingChanges user') <> None ->
            changeType (pendingChanges user') = Some CTemail)
        /\ (pc_password (pendingChanges user') <> None ->
            changeType (pendingChanges user') = Some CTpassword))
    /\ (changeType (pendingChanges user') = None
        <-> stagedCount (pendingChanges user') = 0).
Proof.
  intros H200.
  destruct (updateUserProfile_200 _ _ _ _ H200)
    as (user & st & Hfind & Hnone & Hst & Hmail).
  destruct (updateUserProfile_staged _ _ _ _ _ _ Hfind Hnone Hst)
    as [Hdb _].
  rewrite Hmail in Hdb. rewrite Hdb.
  eexists. split.
  { eapply findById_save; [exact Hfind|]. simpl.
    now apply findById_id in Hfind. }
  simpl.
  destruct (stageChanges_shape _ _ _ _ _ Hst) as (_ & _ & _ & _ & Hct).
  rewrite Hct. unfold stagedCount.
  destruct (pc_username (staged st)), (pc_email (staged st)),
    (pc_password (staged st)); simpl;
    repeat split; intros; try lia; try discriminate; try reflexivity;
    try congruence.
Qed.

(** Re-running the validations for a user whose live fields are the same, on
    a collection where the two uniqueness lookups still find nothing that
    they found nothing for, passes again. *)
Lemma stageChanges_again
    (env env' : Env) (user user' : User) (b : ProfileBody) (db db' : DB)
    (st : Staging) :
  email user' = email user ->
  username user' = username user ->
  password user' = password user ->
  (forall e, e <> email user ->
     findOne (fun v => email v =? e) db = None ->
     findOne (fun v => email v =? e) db' = None) ->
  (forall n, n <> username user ->
     findOne (fun v => username v =? n) db = None ->
     findOne (fun v => username v =? n) db' = None) ->
  stageChanges env user b db = inr st ->
  exists st', stageChanges env' user' b db' = inr st'.
Proof.
  intros He Hn Hp Hemail Hname.
  unfold stageChanges, stageEmail, stageUsername, stagePassword, bindH,
    matchPassword.
  rewrite He, Hn, Hp. intros H.
  repeat match goal with
         | H : inl _ = inr _ |- _ => discriminate H
         | H : inr _ = inr _ |- _ => injection H as H; subst
         | H : context [match truthyValue ?v with _ => _ end] |- _ =>
             destruct (truthyValue v) eqn:?
         | H : context [match findOne (fun v => email v =? ?e) ?d
                        with _ => _ end],
           E : (?e =? email user) = false |- _ =>
             destruct (findOne (fun v => email v =? e) d) eqn:?;
             [|rewrite (Hemail e) by
                 (assumption || (apply String.eqb_neq; assumption))]
         | H : context [match findOne (fun v => username v =? ?n) ?d
                        with _ => _ end],
           E : (?n =? username user) = false |- _ =>
             destruct (findOne (fun v => username v =? n) d) eqn:?;
             [|rewrite (Hname n) by
                 (assumption || (apply String.eqb_neq; assumption))]
         | H : context [if negb ?c then _ else _] |- _ =>
             destruct c eqn:?; simpl negb in H; cbv iota in H
         end; simpl in *; try discriminate; eexists; reflexivity.
Qed.

(** C3: when the validations of an [updateUserProfile] request have passed
    and the notification send fails, the handler answers 500 and leaves the
    user stored with no pending batch and no verification token, and with
    email, username and password as before the call; the same request sent
    again is not answered with the pending-changes error, and is staged and
    answered 200 when its send succeeds. *)
Theorem updateUserProfile_rolls_back_on_send_failure
    (env : Env) (id : nat) (b : ProfileBody) (db : DB) (user : User)
    (st : Staging) :
  findById id db = Some user ->
  changeType (pendingChanges user) = None ->
  stageChanges env user b db = inr st ->
  mailOk env = false ->
  exists user' : User,
    snd (updateUserProfile env id b db)
    = reply 500 "Could not send verification email. Please try again later."
    /\ findById id (fst (updateUserProfile env id b db)) = Some user'
    /\ email user' = email user
    /\ username user' = username user
    /\ password user' = password user
    /\ pendingChanges user' = noPending
    /\ emailVerificationToken user' = None
    /\ emailVerificationExpires user' = None
    /\ (forall env',
          snd (updateUserProfile env' id b
                 (fst (updateUserProfile env id b db)))
          <> reply 400 pendingExistsMessage)
    /\ (forall env', mailOk env' = true ->
          status (snd (updateUserProfile env' id b
                         (fst (updateUserProfile env id b db)))) = 200).
Proof.
  intros Hfind Hnone Hst Hmail.
  pose proof (findById_id _ _ _ Hfind) as Hid.
  destruct (updateUserProfile_staged _ _ _ _ _ _ Hfind Hnone Hst)
    as [Hdb Hstatus].
  cbv zeta in Hdb. rewrite Hmail in Hdb, Hstatus.
  set (user1 := set_emailVerificationExpires (Some (now env + hours24)%Z)
                  (set_emailVerificationToken (Some (freshToken env))
                     (set_pendingChanges (staged st) user))) in *.
  set (user2 := set_emailVerificationExpires None
                  (set_emailVerificationToken None
                     (set_pendingChanges noPending user1))) in *.
  assert (Hfind1 : findById id (save user1 db) = Some user1)
    by (eapply findById_save; [exact Hfind|exact Hid]).
  assert (Hfind2 : findById id (save user2 (save user1 db)) = Some user2)
    by (eapply findById_save; [exact Hfind1|exact Hid]).
  assert (Hagain : forall env', exists st',
            stageChanges env' user2 b (save user2 (save user1 db))
            = inr st').
  { intros env'.
    apply (stageChanges_again env env' user user2 b db _ st);
      try reflexivity; try assumption.
    - intros e Hne Hnot.
      apply (findOne_save_none _ id user1 user2); auto.
      apply (findOne_save_none _ id user user1); auto.
    - intros n Hne Hnot.
      apply (findOne_save_none _ id user1 user2); auto.
      apply (findOne_save_none _ id user user1); auto. }
  exists user2. rewrite Hdb.
  split.
  { unfold updateUserProfile. rewrite Hfind, Hnone, Hst, Hmail. reflexivity. }
  split; [exact Hfind2|].
  repeat (split; [reflexivity|]).
  split.
  - intros env'. destruct (Hagain env') as [st' Hst'].
    destruct (updateUserProfile_staged env' id b _ user2 st' Hfind2
                eq_refl Hst') as [_ Hs].
    intros Heq. rewrite Heq in Hs. simpl in Hs.
    destruct (mailOk env'); discriminate.
  - intros env' Hok. destruct (Hagain env') as [st' Hst'].
    destruct (updateUserProfile_staged env' id b _ user2 st' Hfind2
                eq_refl Hst') as [_ Hs].
    now rewrite Hok in Hs.
Qed.

End UpdateUserProfile.

(** ** forgotPassword, resetPassword and the two kinds of token *)

Section PasswordReset.

Context `{C : Collaborators}.

Lemma findOne_map (p : User -> bool) (f : User -> User) (db : DB) :
  (forall u, p (f u) = p u) ->
  findOne p (map f db) = option_map f (findOne p db).
Proof.
  intros Hp. unfold findOne.
  induction db as [|v rest IH]; simpl; [reflexivity|].
  rewrite Hp. now destruct (p v).
Qed.

Lemma save_map (f : User -> User) (u : User) (db : DB) :
  (forall v, _id (f v) = _id v) ->
  save (f u) (map f db) = map f (save u db).
Proof.
  intros Hid. induction db as [|v rest IH]; simpl; [reflexivity|].
  rewrite !Hid. destruct (_id v =? _id u)%nat; simpl; [reflexivity|].
  now rewrite IH.
Qed.

(** With the send resolving, the answer of [forgotPassword] does not depend
    on the collection, hence not on whether the email is registered. *)
Lemma forgotPassword_uniform_when_sent
    (env : Env) (mail : option string) (db1 db2 : DB) :
  mailOk env = true ->
  snd (forgotPassword env mail db1) = snd (forgotPassword env mail db2).
Proof.
  intros Hok. unfold forgotPassword.
  destruct (truthyValue mail) as [m|]; [|reflexivity].
  destruct (findOne _ db1), (findOne _ db2); rewrite ?Hok; reflexivity.
Qed.

(** C7: on the collection holding the verified user alice, with the email
    send failing, [forgotPassword] answers her registered address with a 500
    and the send-error message, and an unregistered address with the 200 and
    the generic message: the two bodies differ. *)
Theorem forgotPassword_send_failure_reveals_account :
  snd (forgotPassword (envAt 20 "t-reset" 1 false) (Some "alice@x.com")
         dbVerified)
  = reply 500 "Error sending password reset email. Please try again later."
  /\ snd (forgotPassword (envAt 20 "t-reset" 1 false) (Some "nobody@x.com")
            dbVerified)
     = reply 200 resetLinkMessage
  /\ body (snd (forgotPassword (envAt 20 "t-reset" 1 false)
                  (Some "alice@x.com") dbVerified))
     <> body (snd (forgotPassword (envAt 20 "t-reset" 1 false)
                     (Some "nobody@x.com") dbVerified)).
Proof. repeat split. vm_compute. discriminate. Qed.

(** C8 (as amended): a user holds one token per kind.  A successful
    [updateUserProfile] and a [resendVerificationEmail] of an unverified user
    store the fresh token as the email-verification token, after which no
    other value matches the verification lookup, and leave the reset token
    and its expiry as they were; a [forgotPassword] whose send resolves
    stores the fresh token as the reset token, after which no other value
    matches the reset lookup, and leaves the email-verification token and its
    expiry as they were. *)
Theorem issuing_replaces_token_of_same_kind
    (env : Env) (db : DB) (user : User) :
  findById (_id user) db = Some user ->
  (forall b,
     status (snd (updateUserProfile env (_id user) b db)) = 200 ->
     exists user' : User,
       findById (_id user) (fst (updateUserProfile env (_id user) b db))
       = Some user'
       /\ emailVerificationToken user' = Some (freshToken env)
       /\ emailVerificationExpires user' = Some (now env + hours24)%Z
       /\ (forall tok t, tok <> freshToken env ->
             verificationMatches tok t user' = false)
       /\ passwordResetToken user' = passwordResetToken user
       /\ passwordResetExpires user' = passwordResetExpires user)
  /\ (isEmailVerified user = false ->
      exists user' : User,
        findById (_id user) (fst (resendVerificationEmail env (_id user) db))
        = Some user'
        /\ emailVerificationToken user' = Some (freshToken env)
        /\ emailVerificationExpires user' = Some (now env + hours24)%Z
        /\ (forall tok t, tok <> freshToken env ->
              verificationMatches tok t user' = false)
        /\ passwordResetToken user' = passwordResetToken user
        /\ passwordResetExpires user' = passwordResetExpires user)
  /\ (findOne (fun u => email u =? email user) db = Some user ->
      email user <> "" ->
      mailOk env = true ->
      exists user' : User,
        findById (_id user)
          (fst (forgotPassword env (Some (email user)) db)) = Some user'
        /\ passwordResetToken user' = Some (freshToken env)
        /\ passwordResetExpires user' = Some (now env + hours1)%Z
        /\ (forall tok t, tok <> freshToken env ->
              resetMatches tok t user' = false)
        /\ emailVerificationToken user' = emailVerificationToken user
        /\ emailVerificationExpires user' = emailVerificationExpires user).
Proof.
  intros Hfind. split; [|split].
  - intros b H200.
    destruct (updateUserProfile_200 _ _ _ _ H200)
      as (u & st & Hfind' & Hnone & Hst & Hmail).
    rewrite Hfind in Hfind'. injection Hfind' as <-.
    destruct (updateUserProfile_staged _ _ _ _ _ _ Hfind Hnone Hst)
      as [Hdb _].
    rewrite Hmail in Hdb. rewrite Hdb. eexists. split.
    { eapply findById_save; [exact Hfind|reflexivity]. }
    simpl. repeat split.
    intros tok t Hne. unfold verificationMatches. simpl.
    destruct (String.eqb_spec (freshToken env) tok);
      [now subst; contradiction Hne|reflexivity].
  - intros Hunverified. unfold resendVerificationEmail.
    rewrite Hfind, Hunverified. simpl. eexists. split.
    { eapply findById_save; [exact Hfind|reflexivity]. }
    simpl. repeat split.
    intros tok t Hne. unfold verificationMatches. simpl.
    destruct (String.eqb_spec (freshToken env) tok);
      [now subst; contradiction Hne|reflexivity].
  - intros Hmail Hne Hok. unfold forgotPassword. simpl.
    destruct (String.eqb_spec (email user) ""); [contradiction|].
    rewrite Hmail, Hok. simpl. eexists. split.
    { eapply findById_save; [exact Hfind|reflexivity]. }
    simpl. repeat split.
    intros tok t Hne'. unfold resetMatches. simpl.
    destruct (String.eqb_spec (freshToken env) tok);
      [now subst; contradiction Hne'|reflexivity].
Qed.

(** C9: for a user found by a non-expired reset token and a new password
    whose [length] (UTF-16 code units, as line 470 counts) is at least six,
    [resetPassword] saves once the user with the
    password replaced and the reset token and its expiry set to null, and
    with [pendingChanges], [emailVerificationToken] and
    [emailVerificationExpires] as they were; and those three fields are not
    consulted: rewriting them in every document beforehand gives the same
    response and the same collection with them rewritten. *)
Theorem resetPassword_leaves_verification_alone
    (env : Env) (token pass : string) (db : DB) (user : User) :
  6 <= jsLength pass ->
  findOne (resetMatches token (now env)) db = Some user ->
  let user' :=
    set_passwordResetExpires None
      (set_passwordResetToken None (set_password pass user)) in
  let ok :=
    reply 200
      "Password has been reset successfully. You can now log in with your new password." in
  resetPassword env token (Some pass) db = (save user' db, ok)
  /\ password user' = pass
  /\ passwordResetToken user' = None
  /\ passwordResetExpires user' = None
  /\ pendingChanges user' = pendingChanges user
  /\ emailVerificationToken user' = emailVerificationToken user
  /\ emailVerificationExpires user' = emailVerificationExpires user
  /\ (forall (p : nat -> PendingChanges) (t : nat -> option string)
             (e : nat -> option Z),
        resetPassword env token (Some pass)
          (map (overwriteVerification p t e) db)
        = (map (overwriteVerification p t e) (save user' db), ok)).
Proof.
  intros Hlen Hfind user' ok.
  assert (Htruthy : truthyValue (Some pass) = Some pass).
  { simpl. destruct (String.eqb_spec pass "") as [->|]; [|reflexivity].
    simpl in Hlen. lia. }
  assert (Hlong : (jsLength pass <? 6)%nat = false)
    by (apply Nat.ltb_ge; exact Hlen).
  split.
  { unfold resetPassword. now rewrite Htruthy, Hlong, Hfind. }
  repeat (split; [reflexivity|]).
  intros p t e. unfold resetPassword. rewrite Htruthy, Hlong.
  rewrite findOne_map by reflexivity. rewrite Hfind. simpl option_map.
  cbv iota. cbv beta iota zeta delta [trySave refuses existsb]. f_equal.
  change (set_passwordResetExpires None
            (set_passwordResetToken None
               (set_password pass (overwriteVerification p t e user))))
    with (overwriteVerification p t e user').
  apply save_map. reflexivity.
Qed.

End PasswordReset.

(** ** The claims on the sample collections *)

Section Samples.

Lemma dbVerified_reachable : @reachable testDouble dbVerified.
Proof.
  unfold dbVerified. cbv beta iota fix delta [run].
  repeat (apply (@reachable_handle testDouble); [|reflexivity]).
  apply reachable_empty.
Qed.

Lemma dbPending_reachable : @reachable testDouble dbPending.
Proof.
  unfold dbPending. cbv beta iota fix delta [run].
  apply (@reachable_handle testDouble); [|reflexivity].
  apply dbVerified_reachable.
Qed.

Lemma dbTwoTokens_reachable : @reachable testDouble dbTwoTokens.
Proof.
  unfold dbTwoTokens. cbv beta iota fix delta [run].
  repeat (apply (@reachable_handle testDouble); [|reflexivity]).
  apply reachable_empty.
Qed.

(** C8, as stated, fails: after registering and then asking for a password
    reset, alice holds a signup token and a reset token that are both
    unexpired at time 20, and the controller accepts either. *)
Lemma two_tokens_active_at_once :
  @reachable testDouble dbTwoTokens
  /\ In aliceTwoTokens dbTwoTokens
  /\ activeTokens 20 aliceTwoTokens = ["t-signup"; "t-reset"]
  /\ ~ length (activeTokens 20 aliceTwoTokens) <= 1
  /\ status (snd (verifyEmail (envAt 20 "" 1 true) "t-signup" dbTwoTokens))
     = 200
  /\ status (snd (resetPassword (envAt 20 "" 1 true) "t-reset"
                    (Some "secret9") dbTwoTokens)) = 200.
Proof.
  split; [exact dbTwoTokens_reachable|].
  split; [now left|].
  split; [reflexivity|].
  split; [vm_compute; lia|].
  split; reflexivity.
Qed.

Lemma dbEmailTaken_reachable : @reachable testDouble dbEmailTaken.
Proof.
  unfold dbEmailTaken. cbv beta iota fix delta [run].
  apply (@reachable_handle testDouble); [|reflexivity].
  apply dbPending_reachable.
Qed.

(** C1, as stated, fails: alice stages the email new@x.com, bob then
    registers with it, and alice's unexpired token no longer commits her
    batch.  The store refuses the write, the answer is 500 and her document
    keeps its email, its batch and its token. *)
Lemma verifyEmail_refused_when_email_taken :
  @reachable testDouble dbEmailTaken
  /\ findOne (verificationMatches "t-change" 30) dbEmailTaken
     = Some alicePending
  /\ changeType (pendingChanges alicePending) <> None
  /\ verifyEmail (envAt 30 "" 2 true) "t-change" dbEmailTaken
     = (dbEmailTaken, reply 500 "Server error during verification")
  /\ findById 0 (fst (verifyEmail (envAt 30 "" 2 true) "t-change"
                        dbEmailTaken)) = Some alicePending
  /\ email alicePending <> "new@x.com".
Proof.
  split; [exact dbEmailTaken_reachable|].
  split; [reflexivity|].
  split; [discriminate|].
  split; [reflexivity|].
  split; [reflexivity|discriminate].
Qed.

(** [password.length] counts code units, not bytes: five accented letters
    are ten bytes and still too short a password. *)
Lemma resetPassword_counts_code_units :
  String.length "ééééé" = 10
  /\ jsLength "ééééé" = 5
  /\ resetPassword (envAt 20 "" 1 true) "t-reset" (Some "ééééé") dbTwoTokens
     = (dbTwoTokens, reply 400 "Password must be at least 6 characters").
Proof. repeat split. Qed.

Lemma verifyEmail_commits_batch_or_nothing_witness :
  exists user' : User,
    fst (verifyEmail (envAt 30 "" 1 true) "t-change" dbPending)
    = save user' dbPending
    /\ status (snd (verifyEmail (envAt 30 "" 1 true) "t-change" dbPending))
       = 200
    /\ replaced alicePending user' dbPending (save user' dbPending)
    /\ username user' = "alicia"
    /\ email user' = "new@x.com"
    /\ password user' = "$2b$10$saltsecret2"
    /\ isEmailVerified user' = true
    /\ pendingChanges user' = noPending
    /\ emailVerificationToken user' = None
    /\ emailVerificationExpires user' = None.
Proof.
  destruct (@verifyEmail_commits_batch_or_nothing testDouble
              (envAt 30 "" 1 true) "t-change" dbPending alicePending)
    as (u & Hn & He & Hp & Hv & Hpc & Ht & Hx & _ & _ & _ & _ & _ & Hrep
        & _ & Hfree).
  - exact dbPending_reachable.
  - reflexivity.
  - discriminate.
  - destruct Hfree as [Hdb Hstatus].
    { intros v [<-|[]] Hid. now contradiction Hid. }
    exists u. repeat split; assumption.
Defined.

Lemma verifyEmail_unknown_or_expired_witness :
  verifyEmail (envAt 90000000 "" 1 true) "t-change" dbPending
  = (dbPending, reply 400 invalidTokenMessage)
  /\ verifyEmail (envAt 30 "" 1 true) "t-other" dbPending
     = (dbPending, reply 400 invalidTokenMessage).
Proof.
  split.
  - apply (verifyEmail_unknown_or_expired (envAt 90000000 "" 1 true)).
    intros u [<-|[]]. right. simpl. lia.
  - apply (verifyEmail_unknown_or_expired (envAt 30 "" 1 true)).
    intros u [<-|[]]. left. simpl. discriminate.
Defined.

Lemma verifyEmail_message_ignores_batch_witness :
  pendingChanges alicePending <> noPending
  /\ snd (verifyEmail (envAt 30 "" 1 true) "t-change" dbPending)
     = {| status := 200;
          body := [("success", JBool true);
                   ("message", JStr "Email verified successfully")] |}.
Proof.
  split; [discriminate|].
  apply (verifyEmail_message_ignores_batch (envAt 30 "" 1 true) "t-change"
           dbPending alicePending).
  reflexivity.
Defined.

Lemma verifyEmail_reverification_harmless_witness :
  verifyEmail (envAt 30 "" 1 true) "t-old" [aliceStale]
  = ([aliceVerified],
     {| status := 200;
        body := [("success", JBool true);
                 ("message", JStr "Email verified successfully")] |}).
Proof.
  apply (verifyEmail_reverification_harmless (envAt 30 "" 1 true) "t-old"
           [aliceStale] aliceStale); reflexivity.
Defined.

Lemma updateUserProfile_rejects_while_pending_witness :
  @updateUserProfile testDouble (envAt 30 "t-again" 1 true) 0 changeName
    dbPending
  = (dbPending, reply 400 pendingExistsMessage).
Proof.
  apply (@updateUserProfile_rejects_while_pending testDouble
           (envAt 30 "t-again" 1 true) 0 changeName dbPending alicePending).
  - reflexivity.
  - discriminate.
Defined.

Lemma updateUserProfile_rolls_back_on_send_failure_witness :
  exists user' : User,
    findById 0 (fst (@updateUserProfile testDouble
                       (envAt 20 "t-change" 1 false) 0 changeAll dbVerified))
    = Some user'
    /\ email user' = "alice@x.com"
    /\ username user' = "alice"
    /\ password user' = "secret1"
    /\ pendingChanges user' = noPending
    /\ emailVerificationToken user' = None
    /\ status (snd (@updateUserProfile testDouble
                      (envAt 25 "t-retry" 1 true) 0 changeAll
                      (fst (@updateUserProfile testDouble
                              (envAt 20 "t-change" 1 false) 0 changeAll
                              dbVerified)))) = 200.
Proof.
  edestruct (@updateUserProfile_rolls_back_on_send_failure testDouble
               (envAt 20 "t-change" 1 false) 0 changeAll dbVerified
               aliceVerified)
    as (u & _ & Hf & He & Hn & Hp & Hpc & Ht & _ & _ & Hretry).
  - reflexivity.
  - reflexivity.
  - reflexivity.
  - reflexivity.
  - exists u. repeat (split; [assumption|]).
    apply (Hretry (envAt 25 "t-retry" 1 true)). reflexivity.
Defined.

Lemma updateUserProfile_changeType_classifies_witness :
  exists user' : User,
    findById 0 (fst (@updateUserProfile testDouble
                       (envAt 20 "t-change" 1 true) 0 changeAll dbVerified))
    = Some user'
    /\ (changeType (pendingChanges user') = Some CTmultiple
        <-> 2 <= stagedCount (pendingChanges user')).
Proof.
  destruct (@updateUserProfile_changeType_classifies testDouble
              (envAt 20 "t-change" 1 true) 0 changeAll dbVerified)
    as (u & Hf & Hm & _).
  - reflexivity.
  - exists u. split; assumption.
Defined.

Lemma issuing_replaces_token_of_same_kind_witness :
  exists user' : User,
    findById 0 (fst (forgotPassword (envAt 20 "t-reset" 1 true)
                       (Some "alice@x.com") dbPending)) = Some user'
    /\ passwordResetToken user' = Some "t-reset"
    /\ emailVerificationToken user' = Some "t-change".
Proof.
  destruct (@issuing_replaces_token_of_same_kind testDouble
              (envAt 20 "t-reset" 1 true) dbPending alicePending)
    as (_ & _ & Hforgot).
  - reflexivity.
  - destruct Hforgot as (u & Hf & Ht & _ & _ & Hv & _).
    + reflexivity.
    + discriminate.
    + reflexivity.
    + exists u. repeat split; assumption.
Defined.

Lemma resetPassword_leaves_verification_alone_witness :
  resetPassword (envAt 20 "" 1 true) "t-reset" (Some "secret9") dbTwoTokens
  = ([mkUser 0 "alice" "alice@x.com" "secret9" false
        (Some "t-signup") (Some 86400000%Z) None None noPending None],
     reply 200
       "Password has been reset successfully. You can now log in with your new password.").
Proof.
  destruct (resetPassword_leaves_verification_alone (envAt 20 "" 1 true)
              "t-reset" "secret9" dbTwoTokens aliceTwoTokens)
    as (H & _).
  - simpl. lia.
  - reflexivity.
  - exact H.
Defined.

End Samples.

(** ** The shape of every transition *)

Section Shape.

Context `{C : Collaborators}.

(** Two saves of the same identity in a row leave what the second wrote. *)
Lemma save_save (u1 u2 : User) (db : DB) :
  _id u1 = _id u2 -> save u2 (save u1 db) = save u2 db.
Proof.
  intros Hid. induction db as [|v rest IH]; simpl; [reflexivity|].
  rewrite Hid. destruct (Nat.eqb_spec (_id v) (_id u2)) as [E|E]; simpl.
  - now rewrite Hid, Nat.eqb_refl.
  - destruct (Nat.eqb_spec (_id v) (_id u2)); [contradiction|].
    now rewrite IH.
Qed.

Lemma found_replaced (p : User -> bool) (u u' : User) (db : DB) :
  storeOk db -> findOne p db = Some u -> _id u' = _id u ->
  replaced u u' db (save u' db).
Proof.
  intros [Hnd _] Hf Hid. apply save_replaced; auto.
  now apply findOne_In in Hf.
Qed.

Lemma replaced_In_old (u u' v : User) (db db' : DB) :
  replaced u u' db db' -> In v db -> v = u \/ In v db'.
Proof.
  intros (l1 & l2 & -> & ->) Hin. apply in_app_or in Hin as [H|[H|H]].
  - right. apply in_or_app. now left.
  - now left.
  - right. apply in_or_app. right. now right.
Qed.

Lemma replaced_In_new (u u' v : User) (db db' : DB) :
  replaced u u' db db' -> In v db' -> v = u' \/ In v db.
Proof.
  intros (l1 & l2 & -> & ->) Hin. apply in_app_or in Hin as [H|[H|H]].
  - right. apply in_or_app. now left.
  - now left.
  - right. apply in_or_app. right. now right.
Qed.

Lemma replaced_In (u u' : User) (db db' : DB) :
  replaced u u' db db' -> In u db /\ In u' db'.
Proof.
  intros (l1 & l2 & -> & ->).
  split; apply in_or_app; right; now left.
Qed.

(** A request leaves the collection as it was, or appends the registered
    document, or rewrites one stored document in one of the ways of
    [docUpdate]. *)
Lemma handle_shape (env : Env) (r : Request) (db : DB) :
  storeOk db ->
  fst (handle env r db) = db
  \/ (exists b, r = ReqRegister b
        /\ fst (handle env r db) = (db ++ [registered env b])%list
        /\ status (snd (handle env r db)) = 201)
  \/ (exists u u', replaced u u' db (fst (handle env r db))
        /\ docUpdate env db r u u').
Proof.
  intros Hok. destruct r as [b|mail pass|id b|token|id|mail|token pass];
    simpl.
  - unfold registerUser. destruct (findOne _ db) as [v|].
    + left. now destruct (email v =? reg_email b).
    + right. left. exists b. repeat split.
  - unfold loginUser. destruct (findOne _ db) as [v|] eqn:E; [|now left].
    destruct (matchPassword v pass) eqn:Hm; [|now left].
    right. right. exists v, (set_lastLogin (Some (now env)) v). split.
    + eapply found_replaced; eauto.
    + now constructor.
  - unfold updateUserProfile.
    destruct (findById id db) as [v|] eqn:E; [|now left].
    pose proof (findById_id _ _ _ E) as Hid. subst id.
    destruct (changeType (pendingChanges v)) eqn:Hct; [now left|]. simpl.
    destruct (stageChanges env v b db) as [resp|st] eqn:Hst; [now left|].
    right. right. destruct (mailOk env) eqn:Hmail; simpl.
    + exists v, (withStagedBatch env st v). split.
      * eapply found_replaced; eauto.
      * now constructor.
    + exists v, (withoutBatch (withStagedBatch env st v)). split.
      * change (save _ (save _ db))
          with (save (withoutBatch (withStagedBatch env st v))
                  (save (withStagedBatch env st v) db)).
        rewrite save_save by reflexivity.
        eapply found_replaced; eauto.
      * now constructor.
  - unfold verifyEmail. destruct (findOne _ db) as [v|] eqn:E; [|now left].
    unfold trySave. destruct (refuses _ _ db); [now left|].
    right. right. simpl.
    exists v, (clearVerification (applyPending (verifyInitial v))). split.
    + eapply found_replaced; eauto. simpl.
      now rewrite applyPending_id, verifyInitial_id.
    + constructor. now apply findOne_In in E.
  - unfold resendVerificationEmail.
    destruct (findById id db) as [v|] eqn:E; [|now left].
    pose proof (findById_id _ _ _ E) as Hid. subst id.
    destruct (isEmailVerified v) eqn:Hv; [now left|].
    right. right. simpl. exists v, (withFreshVerification env v). split.
    + eapply found_replaced; eauto.
    + now constructor.
  - unfold forgotPassword.
    destruct (truthyValue mail) as [m|] eqn:Hm; [|now left].
    destruct (findOne _ db) as [v|] eqn:E; [|now left].
    assert (Hmail : truthyValue mail = Some (email v)).
    { apply findOne_In in E as [_ E]. apply String.eqb_eq in E.
      now rewrite E. }
    right. right. destruct (mailOk env) eqn:Hsend; simpl.
    + exists v, (withResetToken env v). split.
      * eapply found_replaced; eauto.
      * now constructor.
    + exists v, (withoutResetToken (withResetToken env v)). split.
      * change (save _ (save _ db))
          with (save (withoutResetToken (withResetToken env v))
                  (save (withResetToken env v) db)).
        rewrite save_save by reflexivity.
        eapply found_replaced; eauto.
      * now constructor.
  - unfold resetPassword.
    destruct (truthyValue pass) as [p|] eqn:Hp; [|now left].
    apply truthyValue_some in Hp as [-> _].
    destruct (jsLength p <? 6)%nat eqn:Hlen; [now left|].
    destruct (findOne _ db) as [v|] eqn:E; [|now left].
    right. right. simpl.
    exists v, (withoutResetToken (set_password p v)). split.
    + eapply found_replaced; eauto.
    + constructor.
      * now apply findOne_In in E.
      * now apply Nat.ltb_ge.
Qed.

End Shape.

(** ** Properties of every route *)

Section Routes.

Context `{C : Collaborators}.

(** X1: a request answered with a 4xx status leaves the collection exactly
    as it was, on every route: each validation comes before the first
    write. *)
Theorem client_error_never_writes (env : Env) (r : Request) (db : DB) :
  400 <= status (snd (handle env r db)) < 500 ->
  fst (handle env r db) = db.
Proof.
  destruct r as [b|mail pass|id b|token|id|mail|token pass]; simpl.
  - unfold registerUser. destruct (findOne _ db) as [v|].
    + now destruct (email v =? reg_email b).
    + simpl. lia.
  - unfold loginUser. destruct (findOne _ db) as [v|]; [|reflexivity].
    destruct (matchPassword v pass); [simpl; lia|reflexivity].
  - unfold updateUserProfile. destruct (findById id db) as [v|]; [|reflexivity].
    destruct (isSet (changeType (pendingChanges v))); [reflexivity|].
    destruct (stageChanges env v b db); [reflexivity|].
    destruct (mailOk env); simpl; lia.
  - unfold verifyEmail, trySave. destruct (findOne _ db); [|reflexivity].
    destruct (refuses _ _ db); simpl; [reflexivity|lia].
  - unfold resendVerificationEmail.
    destruct (findById id db) as [v|]; [|reflexivity].
    destruct (isEmailVerified v); [reflexivity|].
    destruct (mailOk env); simpl; lia.
  - unfold forgotPassword. destruct (truthyValue mail); [|reflexivity].
    destruct (findOne _ db); [|reflexivity].
    destruct (mailOk env); simpl; lia.
  - unfold resetPassword. destruct (truthyValue pass) as [p|]; [|reflexivity].
    destruct (jsLength p <? 6)%nat; [reflexivity|].
    destruct (findOne _ db); [simpl; lia|reflexivity].
Qed.

(** X2: no route removes a document or changes an identity: the identities
    of the collection, in order, are the same after any request, except that
    a registration answered 201 appends the new document's identity. *)
Theorem handle_keeps_identities (env : Env) (r : Request) (db : DB) :
  map _id (fst (handle env r db)) = map _id db
  \/ (exists b, r = ReqRegister b
        /\ status (snd (handle env r db)) = 201
        /\ map _id (fst (handle env r db))
           = (map _id db ++ [freshId env])%list).
Proof.
  destruct r as [b|mail pass|id b|token|id|mail|token pass]; simpl.
  - unfold registerUser. destruct (findOne _ db) as [v|].
    + left. now destruct (email v =? reg_email b).
    + right. exists b. simpl. rewrite map_app. auto.
  - left. unfold loginUser. destruct (findOne _ db) as [v|]; [|reflexivity].
    destruct (matchPassword v pass); [apply save_ids|reflexivity].
  - left. unfold updateUserProfile.
    destruct (findById id db) as [v|]; [|reflexivity].
    destruct (isSet (changeType (pendingChanges v))); [reflexivity|].
    destruct (stageChanges env v b db); [reflexivity|].
    destruct (mailOk env); simpl; now rewrite !save_ids.
  - left. unfold verifyEmail, trySave.
    destruct (findOne _ db); [|reflexivity].
    destruct (refuses _ _ db); [reflexivity|apply save_ids].
  - left. unfold resendVerificationEmail.
    destruct (findById id db) as [v|]; [|reflexivity].
    destruct (isEmailVerified v); [reflexivity|apply save_ids].
  - left. unfold forgotPassword. destruct (truthyValue mail); [|reflexivity].
    destruct (findOne _ db); [|reflexivity].
    destruct (mailOk env); simpl; now rewrite !save_ids.
  - left. unfold resetPassword.
    destruct (truthyValue pass) as [p|]; [|reflexivity].
    destruct (jsLength p <? 6)%nat; [reflexivity|].
    destruct (findOne _ db); [apply save_ids|reflexivity].
Qed.

Lemma reachable_run (trace : list (Env * Request)) (db : DB) :
  reachable db -> freshAlong trace db -> reachable (run trace db).
Proof.
  revert db. induction trace as [|[env r] rest IH]; intros db Hr Hf; simpl.
  - exact Hr.
  - destruct Hf as [Hfresh Hrest]. apply IH; [|exact Hrest].
    now apply reachable_handle.
Qed.

Lemma findById_unique (u : User) (db : DB) :
  NoDup (map _id db) -> In u db -> findById (_id u) db = Some u.
Proof.
  unfold findById, findOne. intros Hnd Hin.
  induction db as [|v rest IH]; [contradiction|].
  simpl in Hnd. inversion Hnd as [|x xs Hnotin Hnd' Heq]; subst. simpl.
  destruct Hin as [->|Hin].
  - now rewrite Nat.eqb_refl.
  - destruct (Nat.eqb_spec (_id v) (_id u)) as [E|E]; [|now apply IH].
    exfalso. apply Hnotin. rewrite E. now apply in_map.
Qed.

(** Where a stored document ends up: still there, or rewritten in one of
    the ways of [docUpdate]. *)
Lemma handle_tracks (env : Env) (r : Request) (db : DB) (user : User) :
  storeOk db -> In user db ->
  exists user', In user' (fst (handle env r db))
    /\ (user' = user \/ docUpdate env db r user user').
Proof.
  intros Hok Hin.
  destruct (handle_shape env r db Hok)
    as [->|[(b & _ & -> & _)|(u & u' & Hrep & Hupd)]].
  - exists user. auto.
  - exists user. split; [|now left]. apply in_or_app. now left.
  - destruct (replaced_In_old _ _ _ _ _ Hrep Hin) as [->|Hin'].
    + exists u'. split; [|now right]. now apply replaced_In in Hrep.
    + exists user. auto.
Qed.

Lemma docUpdate_id (env : Env) (db : DB) (r : Request) (u u' : User) :
  docUpdate env db r u u' -> _id u' = _id u.
Proof.
  destruct 1; try reflexivity.
  simpl. now rewrite applyPending_id, verifyInitial_id.
Qed.

Lemma batchTag_staged (env : Env) (user : User) (b : ProfileBody) (db : DB)
    (st : Staging) :
  stageChanges env user b db = inr st ->
  changeType (staged st) = batchTag (staged st)
  /\ changeType (staged st) <> None.
Proof.
  intros H. destruct (stageChanges_shape _ _ _ _ _ H)
    as (Hh & He & Hn & Hp & Hct).
  split; [exact Hct|].
  revert H. unfold stageChanges, stageEmail, stageUsername, stagePassword,
    bindH. intros H.
  repeat match goal with
         | H : inl _ = inr _ |- _ => discriminate H
         | H : inr _ = inr _ |- _ => injection H as H; subst
         | H : context [match truthyValue ?v with _ => _ end] |- _ =>
             destruct (truthyValue v) eqn:?
         | H : context [match findOne ?p ?d with _ => _ end] |- _ =>
             destruct (findOne p d) eqn:?
         | H : context [if negb ?c then _ else _] |- _ =>
             destruct c eqn:?; simpl negb in H; cbv iota in H
         end; simpl in *; discriminate.
Qed.

Lemma applyPending_frame (u : User) :
  passwordResetToken (applyPending u) = passwordResetToken u
  /\ passwordResetExpires (applyPending u) = passwordResetExpires u
  /\ (changeType (pendingChanges u) = None ->
      pendingChanges (applyPending u) = pendingChanges u)
  /\ (changeType (pendingChanges u) <> None ->
      pendingChanges (applyPending u) = noPending).
Proof.
  unfold applyPending.
  destruct (changeType (pendingChanges u)) eqn:E; simpl.
  - destruct (truthyValue (pc_username (pendingChanges u)));
      destruct (truthyValue (pc_email (pendingChanges u)));
      destruct (truthyValue (pc_password (pendingChanges u)));
      simpl; destruct (isEmailVerified u); simpl; repeat split;
      intros; congruence.
  - repeat split; intros; congruence.
Qed.

Lemma verifyInitial_frame (u : User) :
  passwordResetToken (verifyInitial u) = passwordResetToken u
  /\ passwordResetExpires (verifyInitial u) = passwordResetExpires u.
Proof.
  unfold verifyInitial.
  now destruct (negb (isEmailVerified u)
                && negb (isSet (changeType (pendingChanges u)))).
Qed.

Lemma docUpdate_docOk (env : Env) (db : DB) (r : Request) (u u' : User) :
  docUpdate env db r u u' -> docOk u -> docOk u'.
Proof.
  intros Hupd (Htag & Hv & Hr & Hp).
  destruct Hupd as [mail pass u _|b st u Hnone Hst _|b st u Hnone Hst _
                   |token u _|u _|mail u _ _|mail u _ _|token pass u _ _];
    unfold docOk; simpl.
  - auto.
  - destruct (batchTag_staged _ _ _ _ _ Hst) as [Ht _].
    repeat split; auto. discriminate.
  - repeat split; auto.
  - destruct (applyPending_frame (verifyInitial u)) as (Ft & Fe & Fn & Fs).
    destruct (verifyInitial_frame u) as [It Ie].
    rewrite Ft, Fe, It, Ie.
    repeat split; auto.
    + rewrite applyPending_no_batch.
      destruct (changeType (pendingChanges (verifyInitial u))) eqn:E.
      * rewrite Fs by discriminate. reflexivity.
      * rewrite (Fn eq_refl), verifyInitial_pending, <- Htag.
        now rewrite <- (verifyInitial_pending u).
    + rewrite applyPending_no_batch. intros H. now contradiction H.
  - repeat split; auto. discriminate.
  - repeat split; auto.
  - repeat split; auto.
  - repeat split; auto.
Qed.

(** X3: every document of a reachable collection is well formed: its
    [changeType] is the tag that fits its staged fields (null for none, the
    field's own for one, ['multiple'] for more), each token field is set
    exactly when its expiry is, and a pending batch always comes with a
    verification token. *)
Theorem reachable_documents_wellformed (db : DB) :
  reachable db -> Forall docOk db.
Proof.
  induction 1 as [|env r db Hr IH Hfresh]; [constructor|].
  pose proof (reachable_storeOk _ Hr) as Hok.
  destruct (handle_shape env r db Hok)
    as [->|[(b & _ & -> & _)|(u & u' & Hrep & Hupd)]].
  - exact IH.
  - apply Forall_app. split; [exact IH|].
    constructor; [|constructor]. repeat split; simpl; auto.
  - rewrite Forall_forall in *. intros v Hin.
    destruct (replaced_In_new _ _ _ _ _ Hrep Hin) as [->|Hold].
    + apply (docUpdate_docOk _ _ _ _ _ Hupd). apply IH.
      now apply replaced_In in Hrep.
    + now apply IH.
Qed.

End Routes.

(** ** What happens to one user over time *)

Section Lifetime.

Context `{C : Collaborators}.

Lemma verifyInitial_verified (u : User) :
  isEmailVerified u = true -> verifyInitial u = u.
Proof. intros H. unfold verifyInitial. now rewrite H. Qed.

Lemma applyPending_verified (u : User) :
  isEmailVerified u = true -> isEmailVerified (applyPending u) = true.
Proof.
  intros H. unfold applyPending.
  destruct (isSet (changeType (pendingChanges u))); [|exact H].
  destruct (truthyValue (pc_username (pendingChanges u)));
    destruct (truthyValue (pc_email (pendingChanges u)));
    destruct (truthyValue (pc_password (pendingChanges u)));
    simpl; now rewrite H.
Qed.

(** X4: verification is never undone.  For a verified user of a reachable
    collection, after any request on any route the document with that
    identity is still there and still has [isEmailVerified] true. *)
Theorem verified_stays_verified
    (env : Env) (r : Request) (db : DB) (user : User) :
  reachable db ->
  findById (freshId env) db = None ->
  In user db ->
  isEmailVerified user = true ->
  exists user' : User,
    findById (_id user) (fst (handle env r db)) = Some user'
    /\ isEmailVerified user' = true.
Proof.
  intros Hreach Hfresh Hin Hver.
  pose proof (reachable_storeOk _ Hreach) as Hok.
  pose proof (handle_storeOk env r db Hok Hfresh) as [Hnd' _].
  destruct (handle_tracks env r db user Hok Hin) as (u' & Hin' & Hcase).
  exists u'. split.
  - assert (Hid : _id u' = _id user).
    { destruct Hcase as [->|Hupd]; [reflexivity|].
      now apply docUpdate_id in Hupd. }
    rewrite <- Hid. now apply findById_unique.
  - destruct Hcase as [->|Hupd]; [exact Hver|].
    inversion Hupd; subst; simpl; try exact Hver; try congruence.
    rewrite (verifyInitial_verified _ Hver).
    now apply applyPending_verified.
Qed.

(** One request at or after the expiry does not touch the batch of a
    verified user. *)
Lemma expired_batch_step
    (env : Env) (r : Request) (db : DB) (user : User) (expires : Z) :
  storeOk db ->
  In user db ->
  isEmailVerified user = true ->
  changeType (pendingChanges user) <> None ->
  emailVerificationExpires user = Some expires ->
  (expires <= now env)%Z ->
  exists user' : User,
    In user' (fst (handle env r db))
    /\ _id user' = _id user
    /\ isEmailVerified user' = true
    /\ pendingChanges user' = pendingChanges user
    /\ emailVerificationToken user' = emailVerificationToken user
    /\ emailVerificationExpires user' = Some expires.
Proof.
  intros Hok Hin Hver Hpend Hexp Hlate.
  destruct (handle_tracks env r db user Hok Hin) as (u' & Hin' & Hcase).
  exists u'. split; [exact Hin'|].
  destruct Hcase as [->|Hupd]; [now repeat split|].
  inversion Hupd; subst; simpl; try (now repeat split); try congruence.
  exfalso.
  match goal with
  | H : verificationMatches _ _ _ = true |- _ =>
      unfold verificationMatches in H; rewrite Hexp in H;
      destruct (emailVerificationToken user); [|discriminate H];
      apply andb_true_iff in H as [_ H]; apply Z.ltb_lt in H; lia
  end.
Qed.

Lemma expired_batch_kept (trace : list (Env * Request)) :
  forall (db : DB) (user : User) (expires : Z),
    reachable db ->
    freshAlong trace db ->
    In user db ->
    isEmailVerified user = true ->
    changeType (pendingChanges user) <> None ->
    emailVerificationExpires user = Some expires ->
    Forall (fun step => (expires <= now (fst step))%Z) trace ->
    exists user' : User,
      In user' (run trace db)
      /\ _id user' = _id user
      /\ isEmailVerified user' = true
      /\ pendingChanges user' = pendingChanges user
      /\ emailVerificationToken user' = emailVerificationToken user
      /\ emailVerificationExpires user' = Some expires.
Proof.
  induction trace as [|[env r] rest IH];
    intros db user expires Hreach Hfresh Hin Hver Hpend Hexp Hlate.
  - exists user. now repeat split.
  - simpl in *. destruct Hfresh as [Hfresh Hrest].
    inversion Hlate as [|x xs Hnow Hlate' Heq]; subst. simpl in Hnow.
    destruct (expired_batch_step env r db user expires
                (reachable_storeOk _ Hreach) Hin Hver Hpend Hexp Hnow)
      as (u1 & Hin1 & Hid1 & Hver1 & Hpc1 & Htok1 & Hexp1).
    destruct (IH (fst (handle env r db)) u1 expires) as
      (u2 & Hin2 & Hid2 & Hver2 & Hpc2 & Htok2 & Hexp2); auto.
    + now apply reachable_handle.
    + now rewrite Hpc1.
    + exists u2. repeat split; congruence.
Qed.

(** X5: a verified user whose pending batch has outlived its token is stuck
    with it.  Over any sequence of requests, all handled at or after the
    token's expiry, the user stays verified and keeps the same batch, token
    and expiry; afterwards every [updateUserProfile] for that user is still
    refused with the pending-changes message, and every
    [resendVerificationEmail] with "already verified". *)
Theorem expired_batch_is_stuck
    (trace : list (Env * Request)) (db : DB) (user : User) (expires : Z) :
  reachable db ->
  freshAlong trace db ->
  In user db ->
  isEmailVerified user = true ->
  changeType (pendingChanges user) <> None ->
  emailVerificationExpires user = Some expires ->
  Forall (fun step => (expires <= now (fst step))%Z) trace ->
  exists user' : User,
    findById (_id user) (run trace db) = Some user'
    /\ isEmailVerified user' = true
    /\ pendingChanges user' = pendingChanges user
    /\ emailVerificationToken user' = emailVerificationToken user
    /\ emailVerificationExpires user' = Some expires
    /\ (forall env b,
          updateUserProfile env (_id user) b (run trace db)
          = (run trace db, reply 400 pendingExistsMessage))
    /\ (forall env,
          resendVerificationEmail env (_id user) (run trace db)
          = (run trace db, reply 400 "Your email is already verified")).
Proof.
  intros Hreach Hfresh Hin Hver Hpend Hexp Hlate.
  destruct (expired_batch_kept trace db user expires Hreach Hfresh Hin Hver
              Hpend Hexp Hlate)
    as (u' & Hin' & Hid & Hver' & Hpc & Htok & Hexp').
  pose proof (reachable_storeOk _ (reachable_run _ _ Hreach Hfresh))
    as [Hnd _].
  assert (Hfind : findById (_id user) (run trace db) = Some u').
  { rewrite <- Hid. now apply findById_unique. }
  exists u'. repeat (split; [assumption|]). split.
  - intros env b. unfold updateUserProfile. rewrite Hfind, Hpc.
    destruct (changeType (pendingChanges user)); [reflexivity|].
    now contradiction Hpend.
  - intros env. unfold resendVerificationEmail. now rewrite Hfind, Hver'.
Qed.

End Lifetime.

(** ** Staging, in more detail *)

Section StagingGuards.

Context `{C : Collaborators}.

Lemma lookup_none_email (e : string) (db : DB) :
  findOne (fun v => email v =? e) db = None ->
  forall v, In v db -> email v <> e.
Proof.
  intros H v Hin Heq.
  pose proof (proj1 (findOne_none _ _) H v Hin) as Hv. simpl in Hv.
  now rewrite Heq, String.eqb_refl in Hv.
Qed.

Lemma lookup_none_username (n : string) (db : DB) :
  findOne (fun v => username v =? n) db = None ->
  forall v, In v db -> username v <> n.
Proof.
  intros H v Hin Heq.
  pose proof (proj1 (findOne_none _ _) H v Hin) as Hv. simpl in Hv.
  now rewrite Heq, String.eqb_refl in Hv.
Qed.

(** The tests a batch has passed by the time it is staged. *)
Lemma stageChanges_guards (env : Env) (user : User) (b : ProfileBody)
    (db : DB) (st : Staging) :
  stageChanges env user b db = inr st ->
  (forall e, pc_email (staged st) = Some e ->
     e <> "" /\ e <> email user /\ forall v, In v db -> email v <> e)
  /\ (forall n, pc_username (staged st) = Some n ->
        n <> "" /\ n <> username user
        /\ forall v, In v db -> username v <> n)
  /\ (pc_password (staged st) <> None ->
      exists current,
        truthyValue (body_currentPassword b) = Some current
        /\ matchPassword user current = true).
Proof.
  unfold stageChanges, stageEmail, stageUsername, stagePassword, bindH.
  intros H.
  repeat match goal with
         | H : inl _ = inr _ |- _ => discriminate H
         | H : inr _ = inr _ |- _ => injection H as H; subst
         | H : context [match truthyValue ?v with _ => _ end] |- _ =>
             let E := fresh "Etruthy" in destruct (truthyValue v) eqn:E
         | H : context [match findOne ?p ?d with _ => _ end] |- _ =>
             let E := fresh "Efind" in destruct (findOne p d) eqn:E
         | H : context [if negb ?c then _ else _] |- _ =>
             let E := fresh "Etest" in
             destruct c eqn:E; simpl negb in H; cbv iota in H
         end; simpl in *; try discriminate;
    repeat match goal with
           | H : truthyValue _ = Some _ |- _ =>
               apply truthyValue_some in H as [_ H]
           end;
    (split; [|split]);
    try (intros ? [= <-]); try (intros Hnone; try now contradiction Hnone);
    try discriminate;
    try (repeat split;
         first [ assumption
               | apply String.eqb_neq; assumption
               | apply lookup_none_email; assumption
               | apply lookup_none_username; assumption ]);
    try (eexists; split; [reflexivity|assumption]).
Qed.

End StagingGuards.

(** ** updateUserProfile, registerUser and loginUser in more detail *)

Section Accounts.

Context `{C : Collaborators}.

(** X6: a profile update answered 200 changes no live field.  The stored
    user keeps username, email, password, verification flag, reset token and
    last login; the requested values are only staged: each of email and
    username when given, non-empty and different from the current one, and
    the bcrypt digest of the new password when one is given. *)
Theorem staging_defers_live_fields
    (env : Env) (id : nat) (b : ProfileBody) (db : DB) (user : User) :
  findById id db = Some user ->
  status (snd (updateUserProfile env id b db)) = 200 ->
  exists user' : User,
    findById id (fst (updateUserProfile env id b db)) = Some user'
    /\ username user' = username user
    /\ email user' = email user
    /\ password user' = password user
    /\ isEmailVerified user' = isEmailVerified user
    /\ passwordResetToken user' = passwordResetToken user
    /\ passwordResetExpires user' = passwordResetExpires user
    /\ lastLogin user' = lastLogin user
    /\ pc_email (pendingChanges user')
       = match truthyValue (body_email b) with
         | Some e => if e =? email user then None else Some e
         | None => None
         end
    /\ pc_username (pendingChanges user')
       = match truthyValue (body_username b) with
         | Some n => if n =? username user then None else Some n
         | None => None
         end
    /\ pc_password (pendingChanges user')
       = match truthyValue (body_newPassword b) with
         | Some p => Some (bcryptHash p (salt env))
         | None => None
         end.
Proof.
  intros Hfind H200.
  destruct (updateUserProfile_200 _ _ _ _ H200)
    as (u & st & Hfind' & Hnone & Hst & Hmail).
  rewrite Hfind in Hfind'. injection Hfind' as <-.
  destruct (updateUserProfile_staged _ _ _ _ _ _ Hfind Hnone Hst) as [Hdb _].
  rewrite Hmail in Hdb. rewrite Hdb.
  destruct (stageChanges_shape _ _ _ _ _ Hst) as (_ & He & Hn & Hp & _).
  eexists. split.
  { eapply findById_save; [exact Hfind|]. simpl.
    now apply findById_id in Hfind. }
  simpl. repeat split; assumption.
Qed.

(** X7: a batch is only staged after its checks.  After a profile update
    answered 200, a staged email is held by no stored user, a staged username
    is held by no stored user, and a staged password means the request
    carried a current password that matched the user's stored one. *)
Theorem staged_values_passed_checks
    (env : Env) (id : nat) (b : ProfileBody) (db : DB) (user : User) :
  findById id db = Some user ->
  status (snd (updateUserProfile env id b db)) = 200 ->
  exists user' : User,
    findById id (fst (updateUserProfile env id b db)) = Some user'
    /\ (forall e, pc_email (pendingChanges user') = Some e ->
          forall v, In v db -> email v <> e)
    /\ (forall n, pc_username (pendingChanges user') = Some n ->
          forall v, In v db -> username v <> n)
    /\ (pc_password (pendingChanges user') <> None ->
        exists current,
          body_currentPassword b = Some current
          /\ matchPassword user current = true).
Proof.
  intros Hfind H200.
  destruct (updateUserProfile_200 _ _ _ _ H200)
    as (u & st & Hfind' & Hnone & Hst & Hmail).
  rewrite Hfind in Hfind'. injection Hfind' as <-.
  destruct (updateUserProfile_staged _ _ _ _ _ _ Hfind Hnone Hst) as [Hdb _].
  rewrite Hmail in Hdb. rewrite Hdb.
  destruct (stageChanges_guards _ _ _ _ _ Hst) as (Ge & Gn & Gp).
  eexists. split.
  { eapply findById_save; [exact Hfind|]. simpl.
    now apply findById_id in Hfind. }
  simpl. repeat split.
  - intros e He. now apply Ge.
  - intros n Hn. now apply Gn.
  - intros Hp. destruct (Gp Hp) as (cur & Hcur & Hm).
    exists cur. split; [|exact Hm]. now apply truthyValue_some in Hcur.
Qed.

(** X8: [registerUser] creates the account exactly when neither the email
    nor the username is held by a stored user, and then whether or not the
    verification email could be sent: the answer is 201 and the collection
    gains one unverified document with the fresh token expiring in 24 hours
    and no pending batch.  When a stored user holds the email or the
    username the answer is 400 and nothing is created. *)
Theorem registerUser_creates_when_free
    (env : Env) (b : RegisterBody) (db : DB) :
  ((forall u, In u db ->
      email u <> reg_email b /\ username u <> reg_username b) ->
   fst (registerUser env b db) = (db ++ [registered env b])%list
   /\ status (snd (registerUser env b db)) = 201)
  /\ (forall u, In u db ->
        email u = reg_email b \/ username u = reg_username b ->
        fst (registerUser env b db) = db
        /\ status (snd (registerUser env b db)) = 400).
Proof.
  split.
  - intros Hfree. unfold registerUser.
    replace (findOne _ db) with (@None User); [now split|].
    symmetry. apply findOne_none. intros u Hin.
    destruct (Hfree u Hin) as [He Hn].
    apply String.eqb_neq in He, Hn. now rewrite He, Hn.
  - intros u Hin Hheld. unfold registerUser.
    destruct (findOne _ db) as [v|] eqn:E.
    + now destruct (email v =? reg_email b).
    + exfalso. pose proof (proj1 (findOne_none _ _) E u Hin) as Hu.
      simpl in Hu. apply orb_false_iff in Hu as [He Hn].
      apply String.eqb_neq in He, Hn. tauto.
Qed.

(** X9: [loginUser] gives nothing away and writes nothing on failure: when
    no stored user with that email has a matching password (the email
    unknown, or the password wrong), the answer is the same 401 "Invalid
    email or password" and the collection is unchanged. *)
Theorem loginUser_uniform_failure
    (env : Env) (mail pass : string) (db : DB) :
  (forall u, In u db -> email u = mail -> matchPassword u pass = false) ->
  loginUser env mail pass db = (db, reply 401 "Invalid email or password").
Proof.
  intros H. unfold loginUser.
  destruct (findOne _ db) as [v|] eqn:E; [|reflexivity].
  apply findOne_In in E as [Hin Heq]. apply String.eqb_eq in Heq.
  now rewrite (H v Hin Heq).
Qed.

End Accounts.

(** ** Issuing a token and using it *)

Section RoundTrips.

Context `{C : Collaborators}.

(** A lookup that matched nothing before one document was rewritten matches
    at most the rewritten document afterwards. *)
Lemma findOne_after_replace (p : User -> bool) (u u' : User) (db db' : DB) :
  replaced u u' db db' ->
  (forall v, In v db -> p v = false) ->
  findOne p db' = if p u' then Some u' else None.
Proof.
  intros (l1 & l2 & -> & ->) Hnone. unfold findOne.
  assert (H1 : forall v, In v l1 -> p v = false).
  { intros v Hv. apply Hnone. apply in_or_app. now left. }
  assert (H2 : forall v, In v l2 -> p v = false).
  { intros v Hv. apply Hnone. apply in_or_app. right. now right. }
  clear Hnone. induction l1 as [|w l1 IH]; simpl.
  - destruct (p u'); [reflexivity|].
    now apply (proj2 (findOne_none p l2)).
  - rewrite (H1 w (or_introl eq_refl)). apply IH.
    intros v Hv. apply H1. now right.
Qed.

Lemma findOne_app_last (p : User -> bool) (u : User) (db : DB) :
  (forall v, In v db -> p v = false) ->
  findOne p (db ++ [u])%list = if p u then Some u else None.
Proof.
  intros Hnone. unfold findOne. induction db as [|w rest IH]; simpl.
  - now destruct (p u).
  - rewrite (Hnone w (or_introl eq_refl)). apply IH.
    intros v Hv. apply Hnone. now right.
Qed.

Lemma save_app_last (u u' : User) (db : DB) :
  findById (_id u) db = None -> _id u' = _id u ->
  save u' (db ++ [u])%list = (db ++ [u'])%list.
Proof.
  intros Hfresh Hid. unfold findById, findOne in Hfresh.
  induction db as [|w rest IH]; simpl in *.
  - now rewrite Hid, Nat.eqb_refl.
  - rewrite Hid. destruct (_id w =? _id u)%nat; [discriminate|].
    now rewrite IH.
Qed.

Lemma unused_verification_token (token : string) (t : Z) (v : User) :
  emailVerificationToken v <> Some token ->
  verificationMatches token t v = false.
Proof.
  intros H. unfold verificationMatches.
  destruct (emailVerificationToken v) as [tok|]; [|reflexivity].
  destruct (emailVerificationExpires v); [|reflexivity].
  destruct (String.eqb_spec tok token) as [->|]; [|reflexivity].
  now contradiction H.
Qed.

Lemma unused_reset_token (token : string) (t : Z) (v : User) :
  passwordResetToken v <> Some token ->
  resetMatches token t v = false.
Proof.
  intros H. unfold resetMatches.
  destruct (passwordResetToken v) as [tok|]; [|reflexivity].
  destruct (passwordResetExpires v); [|reflexivity].
  destruct (String.eqb_spec tok token) as [->|]; [|reflexivity].
  now contradiction H.
Qed.

(** X10: register, then verify.  After a registration answered 201 with a
    token no stored user carries, [verifyEmail] with that token, at any time
    before 24 hours have passed, answers 200 and leaves the collection with
    the new user verified and its token and expiry cleared, every other
    field as registered. *)
Theorem register_then_verify
    (env env2 : Env) (b : RegisterBody) (db : DB) :
  findById (freshId env) db = None ->
  status (snd (registerUser env b db)) = 201 ->
  (forall v, In v db -> emailVerificationToken v <> Some (freshToken env)) ->
  (now env2 < now env + hours24)%Z ->
  verifyEmail env2 (freshToken env) (fst (registerUser env b db))
  = ((db ++ [mkUser (freshId env) (reg_username b) (reg_email b)
               (reg_password b) true None None None None noPending None])
       %list,
     {| status := 200;
        body := [("success", JBool true);
                 ("message", JStr "Email verified successfully")] |}).
Proof.
  intros Hfresh H201 Hunused Hsoon.
  assert (Hdb : fst (registerUser env b db) = (db ++ [registered env b])%list).
  { revert H201. unfold registerUser. destruct (findOne _ db) as [v|].
    - destruct (email v =? reg_email b); discriminate.
    - reflexivity. }
  rewrite Hdb.
  assert (Hhit : findOne (verificationMatches (freshToken env) (now env2))
                   (db ++ [registered env b])%list
                 = Some (registered env b)).
  { rewrite findOne_app_last
      by (intros v Hv; now apply unused_verification_token, Hunused).
    unfold verificationMatches. simpl.
    rewrite String.eqb_refl. apply Z.ltb_lt in Hsoon. now rewrite Hsoon. }
  rewrite (verifyEmail_result _ _ _ _ Hhit).
  rewrite modifiedPaths_same by reflexivity. simpl.
  f_equal. now apply save_app_last.
Qed.

(** X11: stage, then confirm, then replay.  After a profile update answered
    200 on a reachable collection, with a token no stored user carries,
    [verifyEmail] with that token before 24 hours have passed answers 200
    and leaves the user with each requested value live (the requested email
    and username, the digest of the requested password), verified, and with
    no batch; a second [verifyEmail] with the same token, at any time, is
    answered 400 and changes nothing. *)
Theorem stage_then_verify
    (env env2 : Env) (id : nat) (b : ProfileBody) (db : DB) (user : User) :
  reachable db ->
  findById id db = Some user ->
  status (snd (updateUserProfile env id b db)) = 200 ->
  (forall v, In v db -> emailVerificationToken v <> Some (freshToken env)) ->
  (now env2 < now env + hours24)%Z ->
  let db1 := fst (updateUserProfile env id b db) in
  let db2 := fst (verifyEmail env2 (freshToken env) db1) in
  status (snd (verifyEmail env2 (freshToken env) db1)) = 200
  /\ (exists user2 : User,
        findById id db2 = Some user2
        /\ email user2
           = match truthyValue (body_email b) with
             | Some e => e
             | None => email user
             end
        /\ username user2
           = match truthyValue (body_username b) with
             | Some n => n
             | None => username user
             end
        /\ password user2
           = match truthyValue (body_newPassword b) with
             | Some p => bcryptHash p (salt env)
             | None => password user
             end
        /\ isEmailVerified user2 = true
        /\ pendingChanges user2 = noPending
        /\ emailVerificationToken user2 = None)
  /\ (forall env3,
        verifyEmail env3 (freshToken env) db2
        = (db2, reply 400 invalidTokenMessage)).
Proof.
  intros Hreach Hfind H200 Hunused Hsoon db1 db2.
  pose proof (reachable_storeOk _ Hreach) as Hok.
  pose proof (findById_id _ _ _ Hfind) as Hid.
  destruct (updateUserProfile_200 _ _ _ _ H200)
    as (u & st & Hfind' & Hnone & Hst & Hmail).
  rewrite Hfind in Hfind'. injection Hfind' as <-.
  destruct (updateUserProfile_staged _ _ _ _ _ _ Hfind Hnone Hst) as [Hdb _].
  rewrite Hmail in Hdb. cbv zeta in Hdb.
  fold (withStagedBatch env st user) in Hdb.
  set (user1 := withStagedBatch env st user) in *.
  assert (Hdb1 : db1 = save user1 db) by exact Hdb.
  assert (Hrep1 : replaced user user1 db db1).
  { rewrite Hdb1. eapply found_replaced; eauto. }
  assert (Hall : forall t v, In v db ->
            verificationMatches (freshToken env) t v = false).
  { intros t v Hv. now apply unused_verification_token, Hunused. }
  assert (Hhit : findOne (verificationMatches (freshToken env) (now env2)) db1
                 = Some user1).
  { rewrite (findOne_after_replace _ _ _ _ _ Hrep1 (Hall (now env2))).
    unfold verificationMatches, user1. simpl.
    rewrite String.eqb_refl. apply Z.ltb_lt in Hsoon. now rewrite Hsoon. }
  destruct (batchTag_staged _ _ _ _ _ Hst) as [_ Hset].
  destruct (stageChanges_fieldsOk _ _ _ _ _ Hst) as (Fn & Fe & Fp).
  destruct (stageChanges_shape _ _ _ _ _ Hst) as (_ & Se & Sn & Sp & _).
  set (user2 := clearVerification (applyPending (verifyInitial user1))).
  assert (Hid2 : _id user2 = id).
  { unfold user2. simpl. now rewrite applyPending_id, verifyInitial_id. }
  assert (Hinit : verifyInitial user1 = user1)
    by (apply verifyInitial_pending_set; exact Hset).
  destruct (applyPending_fields user1 Hset (conj Fn (conj Fe Fp)))
    as (An & Ae & _).
  destruct (stageChanges_guards _ _ _ _ _ Hst) as (Ge & Gn & _).
  assert (Haccept : refuses (modifiedPaths user1 user2) user2 db1 = false).
  { apply refuses_false. intros p Hin. apply heldByAnother_false.
    intros v Hv Hne. rewrite Hid2 in Hne.
    destruct (replaced_In_new _ _ _ _ _ Hrep1 Hv) as [->|Hold];
      [now contradiction Hne|].
    unfold user2 in Hin |- *. rewrite Hinit in Hin |- *.
    unfold modifiedPaths in Hin. simpl in Hin.
    apply in_app_or in Hin as [Hin|Hin].
    - destruct (String.eqb_spec (username user)
                  (username (applyPending user1))) as [E|E];
        [contradiction|].
      destruct Hin as [<-|[]]. simpl. rewrite An in *. simpl in *.
      destruct (pc_username (staged st)) as [n|] eqn:En;
        [|now contradiction E].
      destruct (Gn n eq_refl) as (_ & _ & Hfree). now apply Hfree.
    - destruct (String.eqb_spec (email user) (email (applyPending user1)))
        as [E|E]; [contradiction|].
      destruct Hin as [<-|[]]. simpl. rewrite Ae in *. simpl in *.
      destruct (pc_email (staged st)) as [e|] eqn:Ee;
        [|now contradiction E].
      destruct (Ge e eq_refl) as (_ & _ & Hfree). now apply Hfree. }
  assert (Hres : verifyEmail env2 (freshToken env) db1
                 = (save user2 db1,
                    {| status := 200;
                       body := [("success", JBool true);
                                ("message",
                                 JStr "Email verified successfully")] |})).
  { rewrite (verifyEmail_result _ _ _ _ Hhit). fold user2.
    now rewrite Haccept. }
  assert (Hdb2 : db2 = save user2 db1).
  { unfold db2. now rewrite Hres. }
  split; [|split].
  - now rewrite Hres.
  - exists user2. split.
    { rewrite Hdb2. eapply findById_save; [|exact Hid2].
      rewrite Hdb1. eapply findById_save; eauto. }
    unfold user2.
    rewrite (verifyInitial_pending_set user1) by exact Hset.
    unfold applyPending, user1. simpl.
    destruct (changeType (staged st)); [|now contradiction Hset]. simpl.
    rewrite (truthyValue_staged _ Fn), (truthyValue_staged _ Fe),
      (truthyValue_staged _ Fp).
    rewrite Se, Sn, Sp.
    destruct (truthyValue (body_email b)) as [e|];
      destruct (truthyValue (body_username b)) as [n|];
      destruct (truthyValue (body_newPassword b)) as [p|];
      repeat match goal with
             | |- context [?x =? ?y] =>
                 destruct (String.eqb_spec x y); subst
             end;
      simpl; destruct (isEmailVerified user) eqn:Ev; simpl;
      repeat split; try reflexivity; exact Ev.
  - intros env3.
    assert (Hrep2 : replaced user user2 db db2).
    { rewrite Hdb2, Hdb1. rewrite save_save by (now rewrite Hid2).
      eapply found_replaced; eauto. now rewrite Hid2. }
    unfold verifyEmail.
    rewrite (findOne_after_replace _ _ _ _ _ Hrep2 (Hall (now env3))).
    reflexivity.
Qed.

End RoundTrips.

(** ** Reset tokens and resent verification tokens *)

Section Tokens.

Context `{C : Collaborators}.

(** X12: ask for a reset, use the token, replay it.  After a
    [forgotPassword] for a stored user whose email was sent, with a token no
    stored user carries as reset token, [resetPassword] with that token
    before one hour has passed and a password whose [length] (UTF-16 code
    units) is at least six answers 200 and stores the user with the new password and no reset
    token, every other field as before; any later [resetPassword] with the
    same token is answered 400 and changes nothing. *)
Theorem forgot_then_reset
    (env env2 : Env) (mail pass : string) (db : DB) (user : User) :
  reachable db ->
  findOne (fun u => email u =? mail) db = Some user ->
  mail <> "" ->
  mailOk env = true ->
  (forall v, In v db -> passwordResetToken v <> Some (freshToken env)) ->
  (now env2 < now env + hours1)%Z ->
  6 <= jsLength pass ->
  let db1 := fst (forgotPassword env (Some mail) db) in
  let db2 := fst (resetPassword env2 (freshToken env) (Some pass) db1) in
  status (snd (resetPassword env2 (freshToken env) (Some pass) db1)) = 200
  /\ findById (_id user) db2
     = Some (withoutResetToken (set_password pass user))
  /\ (forall env3 pass3,
        fst (resetPassword env3 (freshToken env) pass3 db2) = db2
        /\ status (snd (resetPassword env3 (freshToken env) pass3 db2))
           = 400).
Proof.
  intros Hreach Hfind Hmail Hsent Hunused Hsoon Hlen db1 db2.
  pose proof (reachable_storeOk _ Hreach) as Hok.
  assert (Htruthy : forall s, s <> "" -> truthyValue (Some s) = Some s).
  { intros s Hs. simpl. now destruct (String.eqb_spec s ""). }
  assert (Hpass : pass <> "").
  { intros ->. simpl in Hlen. lia. }
  set (user1 := withResetToken env user).
  set (user2 := withoutResetToken (set_password pass user)).
  assert (Hdb1 : db1 = save user1 db).
  { unfold db1, forgotPassword. now rewrite (Htruthy _ Hmail), Hfind, Hsent. }
  assert (Hrep1 : replaced user user1 db db1).
  { rewrite Hdb1. eapply found_replaced; eauto. }
  assert (Hall : forall t v, In v db ->
            resetMatches (freshToken env) t v = false).
  { intros t v Hv. now apply unused_reset_token, Hunused. }
  assert (Hhit : findOne (resetMatches (freshToken env) (now env2)) db1
                 = Some user1).
  { rewrite (findOne_after_replace _ _ _ _ _ Hrep1 (Hall (now env2))).
    unfold resetMatches, user1. simpl.
    rewrite String.eqb_refl. apply Z.ltb_lt in Hsoon. now rewrite Hsoon. }
  assert (Hlong : (jsLength pass <? 6)%nat = false)
    by now apply Nat.ltb_ge.
  assert (Hdb2 : db2 = save user2 db1).
  { unfold db2, resetPassword.
    now rewrite (Htruthy _ Hpass), Hlong, Hhit. }
  assert (Hfound : findById (_id user) db = Some user).
  { apply findById_unique; [apply Hok|]. now apply findOne_In in Hfind. }
  split; [|split].
  - unfold resetPassword. now rewrite (Htruthy _ Hpass), Hlong, Hhit.
  - rewrite Hdb2, Hdb1. rewrite save_save by reflexivity.
    eapply findById_save; [exact Hfound|reflexivity].
  - intros env3 pass3.
    assert (Hrep2 : replaced user user2 db db2).
    { rewrite Hdb2, Hdb1. rewrite save_save by reflexivity.
      eapply found_replaced; eauto. }
    unfold resetPassword.
    destruct (truthyValue pass3) as [p|]; [|now split].
    destruct (jsLength p <? 6)%nat; [now split|].
    rewrite (findOne_after_replace _ _ _ _ _ Hrep2 (Hall (now env3))).
    now split.
Qed.

(** X13: [forgotPassword] takes the reset token back when the email cannot
    be sent.  For a stored user found by a non-empty email, with the send
    failing, the answer is the 500 and the user is stored with reset token
    and expiry null and every other field as before; so no reset token
    matches that user any more, including one issued and emailed earlier. *)
Theorem forgotPassword_rolls_back_on_send_failure
    (env : Env) (mail : string) (db : DB) (user : User) :
  findOne (fun u => email u =? mail) db = Some user ->
  mail <> "" ->
  mailOk env = false ->
  forgotPassword env (Some mail) db
  = (save (withoutResetToken user) db,
     reply 500 "Error sending password reset email. Please try again later.")
  /\ (forall token t, resetMatches token t (withoutResetToken user) = false).
Proof.
  intros Hfind Hmail Hfail. split; [|reflexivity].
  unfold forgotPassword. simpl.
  destruct (String.eqb_spec mail ""); [contradiction|].
  rewrite Hfind, Hfail. f_equal.
  change (save (withoutResetToken (withResetToken env user))
            (save (withResetToken env user) db)
          = save (withoutResetToken user) db).
  now rewrite save_save by reflexivity.
Qed.



End Tokens.

(** ** The profile form against the server, and the email's change list *)

Section Client.

Context `{C : Collaborators}.

(** Every refusal the validations of [updateUserProfile] can produce, with
    what the request looked like for the two that depend on it alone. *)
Lemma stageChanges_refusals (env : Env) (user : User) (b : ProfileBody)
    (db : DB) (r : Response) :
  stageChanges env user b db = inl r ->
  r = reply 400 "Email is already in use"
  \/ r = reply 400 "Username is already taken"
  \/ (r = reply 400 "Current password is required"
      /\ truthyValue (body_newPassword b) <> None
      /\ truthyValue (body_currentPassword b) = None)
  \/ r = reply 401 "Current password is incorrect"
  \/ (r = reply 400 "No changes were requested"
      /\ (forall e, truthyValue (body_email b) = Some e -> e = email user)
      /\ (forall n, truthyValue (body_username b) = Some n ->
            n = username user)
      /\ truthyValue (body_newPassword b) = None).
Proof.
  unfold stageChanges, stageEmail, stageUsername, stagePassword, bindH.
  intros H.
  repeat match goal with
         | H : inr _ = inl _ |- _ => discriminate H
         | H : inl _ = inl _ |- _ => injection H as H; subst
         | H : context [match truthyValue ?v with _ => _ end] |- _ =>
             let E := fresh "Etruthy" in destruct (truthyValue v) eqn:E
         | H : context [match findOne ?p ?d with _ => _ end] |- _ =>
             let E := fresh "Efind" in destruct (findOne p d) eqn:E
         | H : context [if negb ?c then _ else _] |- _ =>
             let E := fresh "Etest" in
             destruct c eqn:E; simpl negb in H; cbv iota in H
         end; simpl in *; try discriminate;
    first [ now left
          | now (right; left)
          | right; right; left; repeat split; congruence
          | now (right; right; right; left)
          | right; right; right; right; repeat split;
            try congruence;
            intros ? [= <-]; now apply String.eqb_eq ].
Qed.

Lemma changedFrom_nonempty (value : string) (shown : option string) :
  changedFrom value shown = true -> value <> "".
Proof.
  unfold changedFrom. destruct (String.eqb_spec value ""); [discriminate|].
  auto.
Qed.

(** What [handleSubmit] has checked by the time it sends a body. *)
Lemma handleSubmit_sends (f : ProfileForm) (b : ProfileBody) :
  handleSubmit f = inr b ->
  (body_username b <> None \/ body_email b <> None
   \/ body_newPassword b <> None)
  /\ (forall n, body_username b = Some n -> n = form_username f /\ n <> "")
  /\ (forall e, body_email b = Some e -> e = form_email f /\ e <> "")
  /\ (forall p, body_newPassword b = Some p ->
        p = form_password f /\ p <> ""
        /\ p = form_confirmPassword f
        /\ truthyValue (body_currentPassword b) <> None).
Proof.
  unfold handleSubmit.
  pose proof (changedFrom_nonempty (form_username f)
                (cached cu_username (form_profileData f) (form_user f)))
    as Hn.
  pose proof (changedFrom_nonempty (form_email f)
                (cached cu_email (form_profileData f) (form_user f)))
    as He.
  destruct (changedFrom (form_username f) _);
    destruct (changedFrom (form_email f) _);
    destruct (String.eqb_spec (form_password f) "") as [Hp|Hp];
    destruct (String.eqb_spec (form_password f) (form_confirmPassword f))
      as [Hc|Hc];
    simpl;
    destruct (truthyValue (form_currentPassword f)) eqn:Hcur;
    intros H; try discriminate H; injection H as <-; simpl;
    (split; [|split; [|split]]);
    try (intros ? [= <-]); try (intros ? Hx; discriminate Hx);
    auto 6; try (repeat split; auto; discriminate).
  all: try (left; discriminate); try (right; left; discriminate);
    try (right; right; discriminate).
  all: repeat split; auto; try (rewrite Hcur; discriminate).
Qed.

(** X15: what the profile form submits.  When [handleSubmit] sends a
    request, the body names at least one of username, email and new
    password, each named value is a non-empty string, and a new password is
    only sent when it equals the confirmation and a non-empty current
    password goes with it. *)
Theorem handleSubmit_body_wellformed (f : ProfileForm) (b : ProfileBody) :
  handleSubmit f = inr b ->
  (body_username b <> None \/ body_email b <> None
   \/ body_newPassword b <> None)
  /\ (forall n, body_username b = Some n -> n = form_username f /\ n <> "")
  /\ (forall e, body_email b = Some e -> e = form_email f /\ e <> "")
  /\ (forall p, body_newPassword b = Some p ->
        p = form_password f /\ p <> ""
        /\ p = form_confirmPassword f
        /\ truthyValue (body_currentPassword b) <> None).
Proof. exact (handleSubmit_sends f b). Qed.

(** X16: the server's "Current password is required" check cannot be hit
    from the profile form.  Whatever the collection and the signed-in
    identity, a request body built by [handleSubmit] is never answered by
    [updateUserProfile] with that 400. *)
Theorem form_never_lacks_current_password
    (f : ProfileForm) (b : ProfileBody) (env : Env) (id : nat) (db : DB) :
  handleSubmit f = inr b ->
  snd (updateUserProfile env id b db)
  <> reply 400 "Current password is required".
Proof.
  intros Hb. destruct (handleSubmit_sends f b Hb)
    as (_ & _ & _ & Hp).
  unfold updateUserProfile.
  destruct (findById id db) as [user|]; [|discriminate].
  destruct (isSet (changeType (pendingChanges user))); [discriminate|].
  destruct (stageChanges env user b db) as [r|st] eqn:Hst.
  - destruct (stageChanges_refusals _ _ _ _ _ Hst)
      as [->|[->|[(-> & Hnew & Hcur)|[->|(-> & _)]]]]; try discriminate.
    exfalso. destruct (truthyValue (body_newPassword b)) as [p|] eqn:E;
      [|now contradiction Hnew].
    apply truthyValue_some in E as [E _].
    now destruct (Hp p E) as (_ & _ & _ & Hhas).
  - destruct (mailOk env); discriminate.
Qed.

(** X17: when the page's cached username and email are the stored ones, the
    server's "No changes were requested" check cannot be hit from the
    profile form either: the form only submits what differs from the cache,
    and the server stages exactly what differs from the stored user. *)
Theorem form_in_sync_never_sends_noop
    (f : ProfileForm) (b : ProfileBody) (env : Env) (id : nat) (db : DB)
    (user : User) :
  handleSubmit f = inr b ->
  findById id db = Some user ->
  cached cu_username (form_profileData f) (form_user f)
  = Some (username user) ->
  cached cu_email (form_profileData f) (form_user f) = Some (email user) ->
  snd (updateUserProfile env id b db)
  <> reply 400 "No changes were requested".
Proof.
  intros Hb Hfind Hcn Hce.
  unfold updateUserProfile. rewrite Hfind.
  destruct (isSet (changeType (pendingChanges user))); [discriminate|].
  destruct (stageChanges env user b db) as [r|st] eqn:Hst.
  - destruct (stageChanges_refusals _ _ _ _ _ Hst)
      as [->|[->|[(-> & _)|[->|(-> & He & Hn & Hp)]]]]; try discriminate.
    exfalso. revert Hb. unfold handleSubmit, changedFrom.
    rewrite Hcn, Hce.
    destruct (String.eqb_spec (form_password f) "") as [Hpw|Hpw]; simpl.
    + destruct (String.eqb_spec (form_username f) "") as [Hfn|Hfn];
        destruct (String.eqb_spec (form_email f) "") as [Hfe|Hfe];
        destruct (String.eqb_spec (form_username f) (username user))
          as [Hun|Hun];
        destruct (String.eqb_spec (form_email f) (email user)) as [Hue|Hue];
        simpl; intros [= <-]; simpl in *;
        repeat match goal with
               | H : context [if ?x =? "" then _ else _] |- _ =>
                   destruct (String.eqb_spec x ""); [contradiction|]
               end;
        try (now apply Hun, Hn); try (now apply Hue, He).
    + destruct (_ =? form_confirmPassword f); simpl; [|discriminate].
      destruct (truthyValue (form_currentPassword f)); [|discriminate].
      intros [= <-]. simpl in Hp.
      destruct (String.eqb_spec (form_password f) ""); [contradiction|].
      discriminate.
  - destruct (mailOk env); discriminate.
Qed.

(** X18: the change list of the profile-change email shows a password
    change only as a row of asterisks.  For two users with the same username
    and email and two batches with the same staged username and email, both
    with a password staged, [changeDetails] is the same string: the staged
    digest and the stored password never reach it. *)
Theorem changeDetails_hides_password
    (u1 u2 : User) (pc1 pc2 : PendingChanges) :
  username u1 = username u2 ->
  email u1 = email u2 ->
  pc_username pc1 = pc_username pc2 ->
  pc_email pc1 = pc_email pc2 ->
  truthyValue (pc_password pc1) <> None ->
  truthyValue (pc_password pc2) <> None ->
  changeDetails u1 pc1 = changeDetails u2 pc2.
Proof.
  intros Hn He Hpn Hpe H1 H2. unfold changeDetails.
  rewrite Hn, He, Hpn, Hpe.
  destruct (truthyValue (pc_password pc1)); [|now contradiction H1].
  destruct (truthyValue (pc_password pc2)); [|now contradiction H2].
  reflexivity.
Qed.

End Client.

(** ** The further properties on the sample collections *)

Section MoreSamples.


Lemma client_error_never_writes_witness :
  fst (@handle testDouble (envAt 30 "" 1 true) (ReqVerifyEmail "t-other")
         dbPending) = dbPending.
Proof.
  apply (@client_error_never_writes testDouble). simpl. lia.
Defined.

Lemma reachable_documents_wellformed_witness : Forall docOk dbPending.
Proof.
  apply (@reachable_documents_wellformed testDouble).
  exact dbPending_reachable.
Defined.

Lemma verified_stays_verified_witness :
  exists user' : User,
    findById 0 (fst (@handle testDouble (envAt 30 "t-reset" 1 true)
                       (ReqForgotPassword (Some "alice@x.com")) dbPending))
    = Some user'
    /\ isEmailVerified user' = true.
Proof.
  apply (@verified_stays_verified testDouble (envAt 30 "t-reset" 1 true)
           (ReqForgotPassword (Some "alice@x.com")) dbPending alicePending).
  - exact dbPending_reachable.
  - reflexivity.
  - now left.
  - reflexivity.
Defined.

Lemma expired_batch_is_stuck_witness :
  exists user' : User,
    findById 0 (@run testDouble lateTrace dbPending) = Some user'
    /\ pendingChanges user' = pendingChanges alicePending
    /\ emailVerificationToken user' = Some "t-change".
Proof.
  destruct (@expired_batch_is_stuck testDouble lateTrace dbPending
              alicePending 86400020%Z)
    as (u & Hf & _ & Hpc & Htok & _).
  - exact dbPending_reachable.
  - repeat split.
  - now left.
  - reflexivity.
  - discriminate.
  - reflexivity.
  - repeat constructor; simpl; lia.
  - exists u. repeat split; assumption.
Defined.

Lemma staging_defers_live_fields_witness :
  exists user' : User,
    findById 0 (fst (@updateUserProfile testDouble
                       (envAt 20 "t-change" 1 true) 0 changeAll dbVerified))
    = Some user'
    /\ username user' = "alice"
    /\ email user' = "alice@x.com"
    /\ password user' = "secret1"
    /\ pc_email (pendingChanges user') = Some "new@x.com".
Proof.
  destruct (@staging_defers_live_fields testDouble
              (envAt 20 "t-change" 1 true) 0 changeAll dbVerified
              aliceVerified)
    as (u & Hf & Hn & He & Hp & _ & _ & _ & _ & Hpe & _).
  - reflexivity.
  - reflexivity.
  - exists u. repeat split; assumption.
Defined.

Lemma staged_values_passed_checks_witness :
  exists user' : User,
    findById 0 (fst (@updateUserProfile testDouble
                       (envAt 20 "t-change" 1 true) 0 changeAll dbVerified))
    = Some user'
    /\ (forall e, pc_email (pendingChanges user') = Some e ->
          forall v, In v dbVerified -> email v <> e).
Proof.
  destruct (@staged_values_passed_checks testDouble
              (envAt 20 "t-change" 1 true) 0 changeAll dbVerified
              aliceVerified)
    as (u & Hf & He & _).
  - reflexivity.
  - reflexivity.
  - exists u. split; assumption.
Defined.

Lemma registerUser_creates_when_free_witness :
  fst (@registerUser testDouble (envAt 40 "t-bob" 1 false) bobBody dbVerified)
  = [aliceVerified;
     mkUser 1 "bob" "bob@x.com" "hunter22" false (Some "t-bob")
       (Some 86400040%Z) None None noPending None]
  /\ fst (@registerUser testDouble (envAt 40 "t-bob" 1 true) aliceBody
            dbVerified) = dbVerified.
Proof.
  destruct (@registerUser_creates_when_free testDouble
              (envAt 40 "t-bob" 1 false) bobBody dbVerified) as [Hfree _].
  destruct (@registerUser_creates_when_free testDouble
              (envAt 40 "t-bob" 1 true) aliceBody dbVerified) as [_ Hheld].
  split.
  - apply Hfree. intros u [<-|[]]. split; discriminate.
  - apply (Hheld aliceVerified); [now left|now left].
Defined.

Lemma loginUser_uniform_failure_witness :
  @loginUser testDouble (envAt 40 "" 1 true) "alice@x.com" "wrong" dbVerified
  = (dbVerified, reply 401 "Invalid email or password")
  /\ @loginUser testDouble (envAt 40 "" 1 true) "nobody@x.com" "secret1"
       dbVerified
     = (dbVerified, reply 401 "Invalid email or password").
Proof.
  split; apply (@loginUser_uniform_failure testDouble).
  - intros u [<-|[]] _. reflexivity.
  - intros u [<-|[]] H. discriminate H.
Defined.

Lemma register_then_verify_witness :
  verifyEmail (envAt 10 "" 1 true) "t-signup" dbRegistered
  = (dbVerified,
     {| status := 200;
        body := [("success", JBool true);
                 ("message", JStr "Email verified successfully")] |}).
Proof.
  apply (@register_then_verify testDouble (envAt 0 "t-signup" 0 true)
           (envAt 10 "" 1 true) aliceBody []).
  - reflexivity.
  - reflexivity.
  - intros v [].
  - simpl. reflexivity.
Defined.

Lemma stage_then_verify_witness :
  exists user2 : User,
    findById 0 (fst (verifyEmail (envAt 30 "" 1 true) "t-change" dbPending))
    = Some user2
    /\ email user2 = "new@x.com"
    /\ username user2 = "alicia"
    /\ password user2 = "$2b$10$saltsecret2"
    /\ pendingChanges user2 = noPending.
Proof.
  destruct (@stage_then_verify testDouble (envAt 20 "t-change" 1 true)
              (envAt 30 "" 1 true) 0 changeAll dbVerified aliceVerified)
    as (_ & (u & Hf & He & Hn & Hp & _ & Hpc & _) & _).
  - exact dbVerified_reachable.
  - reflexivity.
  - reflexivity.
  - intros v [<-|[]]. discriminate.
  - simpl. reflexivity.
  - exists u. repeat split; assumption.
Defined.

Lemma forgot_then_reset_witness :
  findById 0
    (fst (resetPassword (envAt 50 "" 1 true) "t-reset" (Some "secret9")
            (fst (forgotPassword (envAt 40 "t-reset" 1 true)
                    (Some "alice@x.com") dbVerified))))
  = Some (mkUser 0 "alice" "alice@x.com" "secret9" true None None None None
            noPending None).
Proof.
  destruct (@forgot_then_reset testDouble (envAt 40 "t-reset" 1 true)
              (envAt 50 "" 1 true) "alice@x.com" "secret9" dbVerified
              aliceVerified)
    as (_ & Hf & _).
  - exact dbVerified_reachable.
  - reflexivity.
  - discriminate.
  - reflexivity.
  - intros v [<-|[]]. discriminate.
  - simpl. reflexivity.
  - simpl. lia.
  - exact Hf.
Defined.

Lemma forgotPassword_rolls_back_on_send_failure_witness :
  fst (forgotPassword (envAt 20 "t-again" 1 false) (Some "alice@x.com")
         dbTwoTokens)
  = [aliceRegistered].
Proof.
  destruct (forgotPassword_rolls_back_on_send_failure
              (envAt 20 "t-again" 1 false) "alice@x.com" dbTwoTokens
              aliceTwoTokens) as [H _].
  - reflexivity.
  - discriminate.
  - reflexivity.
  - now rewrite H.
Defined.


Lemma handleSubmit_body_wellformed_witness :
  handleSubmit aliceForm = inr aliceFormBody
  /\ (forall p, body_newPassword aliceFormBody = Some p ->
        p = form_password aliceForm /\ p <> ""
        /\ p = form_confirmPassword aliceForm
        /\ truthyValue (body_currentPassword aliceFormBody) <> None).
Proof.
  split; [reflexivity|].
  apply (handleSubmit_body_wellformed aliceForm aliceFormBody). reflexivity.
Defined.

Lemma form_never_lacks_current_password_witness :
  snd (@updateUserProfile testDouble (envAt 20 "t-change" 1 true) 0
         aliceFormBody dbVerified)
  <> reply 400 "Current password is required".
Proof.
  apply (@form_never_lacks_current_password testDouble aliceForm).
  reflexivity.
Defined.

Lemma form_in_sync_never_sends_noop_witness :
  snd (@updateUserProfile testDouble (envAt 20 "t-change" 1 true) 0
         aliceFormBody dbVerified)
  <> reply 400 "No changes were requested".
Proof.
  apply (@form_in_sync_never_sends_noop testDouble aliceForm aliceFormBody
           (envAt 20 "t-change" 1 true) 0 dbVerified aliceVerified);
    reflexivity.
Defined.

Lemma changeDetails_hides_password_witness :
  changeDetails aliceVerified (pendingChanges alicePending)
  = changeDetails aliceVerified
      {| pc_username := Some "alicia"; pc_email := Some "new@x.com";
         pc_password := Some "another digest";
         changeType := Some CTmultiple |}.
Proof.
  apply changeDetails_hides_password; try reflexivity; discriminate.
Defined.

End MoreSamples.

(** ** The two kinds of token are not interchangeable *)

Section TokenKinds.

(** X19: a token that no stored user carries as [passwordResetToken] cannot
    reset a password, whatever else it is: [resetPassword] with it is
    answered 400 and changes nothing, even when it is some user's unexpired
    email-verification token. *)
Theorem resetPassword_needs_reset_token
    (env : Env) (token : string) (pass : option string) (db : DB) :
  (forall v, In v db -> passwordResetToken v <> Some token) ->
  fst (resetPassword env token pass db) = db
  /\ status (snd (resetPassword env token pass db)) = 400.
Proof.
  intros Hunused. unfold resetPassword.
  destruct (truthyValue pass) as [p|]; [|now split].
  destruct (jsLength p <? 6)%nat; [now split|].
  replace (findOne (resetMatches token (now env)) db) with (@None User);
    [now split|].
  symmetry. apply findOne_none. intros v Hv.
  now apply unused_reset_token, Hunused.
Qed.

Lemma resetPassword_needs_reset_token_witness :
  verificationMatches "t-change" 30 alicePending = true
  /\ fst (resetPassword (envAt 30 "" 1 true) "t-change" (Some "secret9")
            dbPending) = dbPending.
Proof.
  split; [reflexivity|].
  apply (resetPassword_needs_reset_token (envAt 30 "" 1 true) "t-change"
           (Some "secret9") dbPending).
  intros v [<-|[]]. discriminate.
Defined.

End TokenKinds.
